(** * ProductsService: the request handlers of [app.py]

    A shallow embedding of the five product handlers ([indexProducts],
    [showProduct], [storeProduct], [updateProduct], [destroyProduct]), of the
    two envelope builders ([MakeResponse], [MakeResponsePaginate]) and of the
    [messages] table, over an explicit model of the two tables the module
    declares ([unit_measures] and [products]) with the constraints their
    columns carry (primary keys, [nullable=False], [unique=True], the foreign
    key).

    Python exceptions are values of [exn]; a computation that may raise
    returns a [result]; code that talks to the database threads the session
    through a small state-and-exception monad.

    What the handlers ask of their libraries is modelled as far as the
    handlers depend on it:
    - chalice: [query_params] is [None] for a request without a query
      string and a [MultiDict] otherwise; [json_body] is [None] for a
      request without a JSON body, and otherwise an object whose [name] is
      a text or null, whose [price] is a number or null and whose
      [unit_measure_id] is an integer or null (a body that cannot be
      parsed, or that holds values of other types, is not modelled);
    - Python: [int] reads a text of at most 4300 digits;
    - SQLAlchemy: [Query.offset] and [Query.limit] convert what they are
      given with [int]; a [Session] used as a context manager is closed on
      exit, which rolls back what was not committed; a dirty instance is
      flushed before the next query; the keys of the dict given to
      [Query.update] are the targets of the SET clause;
    - psycopg2: a text with a NUL character is refused before the
      statement is sent; a float is sent as its decimal text, so the sign
      of a zero is not stored;
    - PostgreSQL: an [Integer] column and its sequence are 32-bit, and a
      value outside that range is an error of the statement; OFFSET and
      LIMIT are 64-bit and not negative; the constraints are checked when
      a row is written; LIKE reads [%], [_] and the backslash specially
      and matches character by character; a sequence is not rolled back;
      a query without ORDER BY reads a table in one order, the order of
      the list that models it.

    A text is the string of the bytes of its UTF-8 encoding.  The [id] of a
    route is the integer its path segment denotes, the segment being
    written as [str] prints that integer: the messages repeat the segment
    as it was given. *)

From Stdlib Require Import ZArith List String Ascii Bool Lia Floats DecimalString.
Import ListNotations.

Open Scope string_scope.
Open Scope Z_scope.

Set Warnings "-register-all".

(* ================================================================= *)
(** ** Python values, exceptions and results *)

(** The JSON-serialisable values the handlers put in a response body.
    A Python dict keeps insertion order, so it is an association list. *)
Inductive value : Type :=
| VNone
| VInt (n : Z)
| VFloat (x : float)
| VStr (s : string)
| VList (l : list value)
| VDict (d : list (string * value)).

(** The exceptions that can travel through a handler.  [KeyError] is the only
    one the handlers catch. *)
Inductive exn : Type :=
| KeyError (key : string)
| AttributeError
| ValueError
| IntegrityError
| DataError
| StatementError.

Inductive result (A : Type) : Type :=
| Ok (a : A)
| Raise (e : exn).

Arguments Ok {A} a.
Arguments Raise {A} e.

(** [d.get(key)] on a dict built in order: Python keeps one entry per key. *)
Fixpoint dict_get {A : Type} (key : string) (d : list (string * A)) : option A :=
  match d with
  | [] => None
  | (k, v) :: d' => if String.eqb k key then Some v else dict_get key d'
  end.

Definition keys {A : Type} (d : list (string * A)) : list string := map fst d.

(** [str(n)] for an integer. *)
Definition str_of_Z (n : Z) : string := NilZero.string_of_int (Z.to_int n).

(* ================================================================= *)
(** ** [str.format] with keyword arguments *)

(** The fragment of [str.format] the message table needs: literal text,
    replacement fields [{name}] filled from the keyword arguments, and the
    doubled braces.  A field whose name is not among the keyword arguments
    raises [KeyError]; an unbalanced brace raises [ValueError].

    [field] is [Some name] while the scan is inside a replacement field
    whose name read so far is [name]. *)
Fixpoint format_scan (template : string) (field : option string)
         (kwargs : list (string * string)) : result string :=
  match template with
  | EmptyString =>
      match field with
      | None => Ok EmptyString
      | Some _ => Raise ValueError
      end
  | String c rest =>
      match field with
      | None =>
          if Ascii.eqb c "{" then
            match rest with
            | String "{" rest' =>
                match format_scan rest' None kwargs with
                | Ok s => Ok (String "{" s)
                | Raise e => Raise e
                end
            | _ => format_scan rest (Some EmptyString) kwargs
            end
          else if Ascii.eqb c "}" then
            match rest with
            | String "}" rest' =>
                match format_scan rest' None kwargs with
                | Ok s => Ok (String "}" s)
                | Raise e => Raise e
                end
            | _ => Raise ValueError
            end
          else
            match format_scan rest None kwargs with
            | Ok s => Ok (String c s)
            | Raise e => Raise e
            end
      | Some name =>
          if Ascii.eqb c "}" then
            match dict_get name kwargs with
            | Some v =>
                match format_scan rest None kwargs with
                | Ok s => Ok (v ++ s)
                | Raise e => Raise e
                end
            | None => Raise (KeyError name)
            end
          else format_scan rest (Some (name ++ String c EmptyString)) kwargs
      end
  end.

Definition format (template : string) (kwargs : list (string * string)) : result string :=
  format_scan template None kwargs.

(* ================================================================= *)
(** ** The message table *)

Definition messages : list (string * string) :=
  [ ("RecordFound", "The {resource} has been found successfully");
    ("RecordCreated", "The {resource} has been created successfully");
    ("RecordUpdated", "The {resource} with id '{id}' has been updated successfully");
    ("RecordDeleted", "The {resource} with id '{id}'has been deleted successfully");
    ("RecordNotFound", "The {resource} with id '{id}' has not been found");
    ("RecordAlreadyExists", "The {resource} already exists");
    ("InternalError", "An error occurred during your request, please try again") ].

(** [messages.get(key).format(...)]: [get] on a missing key gives
    [None], and [None.format] raises [AttributeError]. *)
Definition message (key : string) (kwargs : list (string * string)) : result string :=
  match dict_get key messages with
  | Some template => format template kwargs
  | None => Raise AttributeError
  end.

(* ================================================================= *)
(** ** The response envelope *)

(** chalice's [Response(body=...)]: the body and the HTTP status, which
    defaults to 200 and which no handler sets. *)
Record Response : Type := mkResponse {
  body : list (string * value);
  http_status : Z
}.

Definition Response_of_body (b : list (string * value)) : Response :=
  {| body := b; http_status := 200 |}.

(** A keyword argument that was left out takes its default. *)
Definition default {A : Type} (d : A) (arg : option A) : A :=
  match arg with
  | Some a => a
  | None => d
  end.

(** [MakeResponse(message, data=None, status_code=200, error=None)]. *)
Definition MakeResponse (message : string) (data : option value)
           (status_code : option Z) (error : option value) : Response :=
  let data := default VNone data in
  let status_code := default 200 status_code in
  let error := default VNone error in
  let status := "OK" in
  let status :=
    if status_code =? 400 then "BadRequest"
    else if status_code =? 500 then "InternalServerError"
    else status in
  Response_of_body
    [ ("status", VStr status);
      ("code", VInt status_code);
      ("message", VStr message);
      ("error", error);
      ("data", data) ].

(** [MakeResponsePaginate(message, data, totalRecords)]. *)
Definition MakeResponsePaginate (message : string) (data : value)
           (totalRecords : Z) : Response :=
  Response_of_body
    [ ("status", VStr "OK");
      ("code", VInt 200);
      ("message", VStr message);
      ("error", VNone);
      ("data", data);
      ("total_records", VInt totalRecords) ].

(** The five fields of an envelope, and the six of a paginated one. *)
Definition envelope_fields : list string :=
  ["status"; "code"; "message"; "error"; "data"].

Definition paginated_fields : list string :=
  envelope_fields ++ ["total_records"].

(* ================================================================= *)
(** ** State and exceptions *)

(** A computation over a state [S] that returns an [A] or raises.  The
    state is returned in both cases: what a failed statement has already
    done to it is decided by whoever owns the state (see [with_session]). *)
Definition M (S A : Type) : Type := S -> result A * S.

Definition ret {S A : Type} (a : A) : M S A := fun s => (Ok a, s).

Definition raise {S A : Type} (e : exn) : M S A := fun s => (Raise e, s).

Definition bind {S A B : Type} (c : M S A) (k : A -> M S B) : M S B :=
  fun s =>
    match c s with
    | (Ok a, s') => k a s'
    | (Raise e, s') => (Raise e, s')
    end.

Notation "x <- c ;; k" := (bind c (fun x => k))
  (at level 61, c at next level, right associativity).
Notation "c ;;; k" := (bind c (fun _ => k))
  (at level 61, right associativity).

Definition lift {S A : Type} (r : result A) : M S A := fun s => (r, s).

Definition gets {S A : Type} (f : S -> A) : M S A := fun s => (Ok (f s), s).

Definition modify {S : Type} (f : S -> S) : M S unit := fun s => (Ok tt, f s).

(** [x.attr] or [x.method(...)] on an [x] that may be [None]. *)
Definition require {S A : Type} (x : option A) : M S A :=
  match x with
  | Some a => ret a
  | None => raise AttributeError
  end.

(* ================================================================= *)
(** ** The mapped classes and the tables *)

(** A row of [unit_measures]; the handlers only read it. *)
Module UnitMeasure.
Record t : Type := mk {
  id : Z;
  name : string
}.
End UnitMeasure.

(** A row of [products].  The three data columns are [nullable=False], so a
    stored row has a value in each. *)
Module ProductRow.
Record t : Type := mk {
  id : Z;
  name : string;
  price : float;
  unit_measure_id : Z
}.
End ProductRow.

(** A [Product] instance in memory: an attribute that was not given, and
    the [id] of an instance that was not flushed, are [None]. *)
Module Product.
Record t : Type := mk {
  id : option Z;
  name : option string;
  price : option float;
  unit_measure_id : option Z
}.

Definition of_row (r : ProductRow.t) : t :=
  {| id := Some (ProductRow.id r);
     name := Some (ProductRow.name r);
     price := Some (ProductRow.price r);
     unit_measure_id := Some (ProductRow.unit_measure_id r) |}.
End Product.

Record Tables : Type := mkTables {
  unit_measures : list UnitMeasure.t;
  products : list ProductRow.t
}.

(** What the database holds between requests: the committed tables and the
    last value the sequence behind [products.id] has handed out. *)
Record Database : Type := mkDatabase {
  tables : Tables;
  products_id_seq : Z
}.

Definition empty_database (units : list UnitMeasure.t) : Database :=
  {| tables := {| unit_measures := units; products := [] |};
     products_id_seq := 0 |}.

(** A [Session(engine)]: the tables as committed, the tables as the open
    transaction sees them, and the sequence, which is not transactional. *)
Record Session : Type := mkSession {
  committed : Tables;
  current : Tables;
  sequence : Z
}.

Definition set_current (t : Tables) (s : Session) : Session :=
  {| committed := committed s; current := t; sequence := sequence s |}.

Definition set_products (ps : list ProductRow.t) (s : Session) : Session :=
  set_current {| unit_measures := unit_measures (current s); products := ps |} s.

(** [with Session(engine) as session: block].  Leaving the block, by its
    end, by [return] or by an exception, closes the session: what was not
    committed is rolled back. *)
Definition with_session {A : Type} (block : M Session A) : M Database A :=
  fun db =>
    let '(r, s) := block {| committed := tables db;
                            current := tables db;
                            sequence := products_id_seq db |} in
    (r, {| tables := committed s; products_id_seq := sequence s |}).

(** [session.commit()]. *)
Definition session_commit : M Session unit :=
  modify (fun s => {| committed := current s;
                      current := current s;
                      sequence := sequence s |}).

(* ================================================================= *)
(** ** Column types and what the driver sends *)

(** [Column(Integer)] is a 32-bit integer in PostgreSQL; OFFSET and LIMIT
    are 64-bit. *)
Definition int32_min : Z := -2147483648.
Definition int32_max : Z := 2147483647.
Definition int64_max : Z := 9223372036854775807.

Definition in_int32 (n : Z) : bool := (int32_min <=? n) && (n <=? int32_max).

(** The driver does not send a string that has a NUL character. *)
Fixpoint has_nul (s : string) : bool :=
  match s with
  | EmptyString => false
  | String c rest => Ascii.eqb c Ascii.zero || has_nul rest
  end.

Definition optional_has_nul (s : option string) : bool :=
  match s with
  | Some s => has_nul s
  | None => false
  end.

(** A float is sent as its decimal text; the text of a negative zero reads
    back as zero. *)
Definition stored_float (x : float) : float :=
  if PrimFloat.eqb x PrimFloat.zero then PrimFloat.zero else x.

(* ================================================================= *)
(** ** Constraints *)

(** A stored product has the 32-bit integer [id]. *)
Definition has_product_id (id : Z) (ps : list ProductRow.t) : bool :=
  in_int32 id && existsb (fun r => ProductRow.id r =? id) ps.

Definition has_product_name (name : string) (ps : list ProductRow.t) : bool :=
  existsb (fun r => String.eqb (ProductRow.name r) name) ps.

Definition has_unit_measure (id : Z) (us : list UnitMeasure.t) : bool :=
  existsb (fun u => UnitMeasure.id u =? id) us.

(** What [products] demands of a row that is about to be stored next to
    the rows [others]: a fresh primary key, a fresh name ([unique=True]) and
    an existing unit measure (the foreign key). *)
Definition row_accepted (t : Tables) (others : list ProductRow.t) (r : ProductRow.t) : bool :=
  negb (has_product_id (ProductRow.id r) others)
  && negb (has_product_name (ProductRow.name r) others)
  && has_unit_measure (ProductRow.unit_measure_id r) (unit_measures t).

(* ================================================================= *)
(** ** Session operations *)

(** The first stored product whose id is the 32-bit integer [id]. *)
Definition find_product (id : Z) (ps : list ProductRow.t) : option ProductRow.t :=
  if in_int32 id then find (fun r => ProductRow.id r =? id) ps else None.

(** [session.query(Product).where(Product.id == id).first()].  The id of
    the route is compared with a 32-bit column: a value outside its range
    is an error of the statement. *)
Definition query_first (id : Z) : M Session (option Product.t) :=
  fun s =>
    if in_int32 id
    then (Ok (option_map Product.of_row (find_product id (products (current s)))), s)
    else (Raise DataError, s).

(** What the driver and the column types refuse of the values of an INSERT
    or UPDATE before any row is touched: a name with a NUL character
    ([ValueError], raised by the driver), a unit measure outside the
    32-bit range ([DataError]). *)
Definition refused_values (product : Product.t) : option exn :=
  if optional_has_nul (Product.name product) then Some ValueError
  else
    match Product.unit_measure_id product with
    | Some u => if in_int32 u then None else Some DataError
    | None => None
    end.

(** [session.add(product); session.flush()]: the INSERT.  An instance
    without an [id] takes the next value of the sequence, which stays taken
    when a constraint refuses the row; the sequence of a 32-bit column ends
    at [int32_max].  The instance keeps the values it was given and
    receives the id. *)
Definition session_add_flush (product : Product.t) : M Session Product.t :=
  fun s =>
    match refused_values product with
    | Some e => (Raise e, s)
    | None =>
        let next :=
          match Product.id product with
          | Some id => if in_int32 id then Some (id, sequence s) else None
          | None =>
              if sequence s <? int32_max
              then Some (sequence s + 1, sequence s + 1)
              else None
          end in
        match next with
        | None => (Raise DataError, s)
        | Some (id, seq) =>
            let s := {| committed := committed s; current := current s; sequence := seq |} in
            match Product.name product, Product.price product,
                  Product.unit_measure_id product with
            | Some name, Some price, Some unit_measure_id =>
                let r := {| ProductRow.id := id;
                            ProductRow.name := name;
                            ProductRow.price := stored_float price;
                            ProductRow.unit_measure_id := unit_measure_id |} in
                if row_accepted (current s) (products (current s)) r
                then (Ok {| Product.id := Some id;
                            Product.name := Product.name product;
                            Product.price := Product.price product;
                            Product.unit_measure_id := Product.unit_measure_id product |},
                      set_products (products (current s) ++ [r]) s)
                else (Raise IntegrityError, s)
            | _, _, _ => (Raise IntegrityError, s)
            end
        end
    end.

(** Replaces the row whose primary key is [id]. *)
Fixpoint replace_row (id : Z) (r : ProductRow.t) (ps : list ProductRow.t) : list ProductRow.t :=
  match ps with
  | [] => []
  | p :: ps' =>
      if ProductRow.id p =? id then r :: ps' else p :: replace_row id r ps'
  end.

Definition other_rows (id : Z) (ps : list ProductRow.t) : list ProductRow.t :=
  filter (fun r => negb (ProductRow.id r =? id)) ps.

(** The flush of an instance that was loaded with primary key [id] and
    whose attributes were assigned since: the UPDATE of its row. *)
Definition session_flush_dirty (id : Z) (product : Product.t) : M Session unit :=
  fun s =>
    match refused_values product with
    | Some e => (Raise e, s)
    | None =>
        match Product.id product, Product.name product,
              Product.price product, Product.unit_measure_id product with
        | Some id', Some name, Some price, Some unit_measure_id =>
            let r := {| ProductRow.id := id';
                        ProductRow.name := name;
                        ProductRow.price := stored_float price;
                        ProductRow.unit_measure_id := unit_measure_id |} in
            if row_accepted (current s) (other_rows id (products (current s))) r
            then (Ok tt, set_products (replace_row id r (products (current s))) s)
            else (Raise IntegrityError, s)
        | _, _, _, _ => (Raise IntegrityError, s)
        end
    end.

(** [product.unit_measures]: the relationship, loaded through the foreign
    key the instance holds. *)
Definition load_unit_measures (product : Product.t) : M Session (option UnitMeasure.t) :=
  gets (fun s =>
    match Product.unit_measure_id product with
    | Some u => find (fun m => UnitMeasure.id m =? u) (unit_measures (current s))
    | None => None
    end).

(* ================================================================= *)
(** ** The schemas *)

Definition dump_optional {A : Type} (f : A -> value) (x : option A) : value :=
  match x with
  | Some a => f a
  | None => VNone
  end.

(** [UnitMeasureSchema().dump(u)]. *)
Definition UnitMeasureSchema_dump (u : UnitMeasure.t) : list (string * value) :=
  [ ("id", VInt (UnitMeasure.id u));
    ("name", VStr (UnitMeasure.name u)) ].

(** [ProductSchema().dump(product)]: the four columns and the nested unit
    measure, which is read through the relationship. *)
Definition ProductSchema_dump (product : Product.t) : M Session (list (string * value)) :=
  unit <- load_unit_measures product ;;
  ret [ ("id", dump_optional VInt (Product.id product));
        ("name", dump_optional VStr (Product.name product));
        ("price", dump_optional VFloat (Product.price product));
        ("unit_measure_id", dump_optional VInt (Product.unit_measure_id product));
        ("unit_measures", dump_optional (fun u => VDict (UnitMeasureSchema_dump u)) unit) ].

(* ================================================================= *)
(** ** Query-level UPDATE and DELETE *)

Definition products_columns : list string :=
  ["id"; "name"; "price"; "unit_measure_id"].

(** One assignment of a SET clause, on the row it applies to. *)
Definition set_column (r : result ProductRow.t) (kv : string * value) : result ProductRow.t :=
  match r with
  | Raise e => Raise e
  | Ok r =>
      let '(k, v) := kv in
      let with_id n := ProductRow.mk n (ProductRow.name r) (ProductRow.price r) (ProductRow.unit_measure_id r) in
      let with_name n := ProductRow.mk (ProductRow.id r) n (ProductRow.price r) (ProductRow.unit_measure_id r) in
      let with_price x := ProductRow.mk (ProductRow.id r) (ProductRow.name r) x (ProductRow.unit_measure_id r) in
      let with_unit n := ProductRow.mk (ProductRow.id r) (ProductRow.name r) (ProductRow.price r) n in
      match v with
      | VNone => Raise IntegrityError
      | VInt n =>
          if String.eqb k "id" then Ok (with_id n)
          else if String.eqb k "unit_measure_id" then Ok (with_unit n)
          else Raise DataError
      | VStr n => if String.eqb k "name" then Ok (with_name n) else Raise DataError
      | VFloat x => if String.eqb k "price" then Ok (with_price x) else Raise DataError
      | VList _ | VDict _ => Raise StatementError
      end
  end.

(** [session.query(Product).where(Product.id == id).update(values)]: an
    UPDATE of [products] whose SET clause has one assignment per key of
    [values].  A key that is not a column of the table has nothing to
    assign to, and the statement is refused before it is sent; an [id]
    outside the range of the column is an error of the statement.  The
    result is the number of rows matched. *)
Definition query_update (id : Z) (values : list (string * value)) : M Session Z :=
  fun s =>
    if forallb (fun k => existsb (String.eqb k) products_columns) (keys values) then
      if in_int32 id then
        match find_product id (products (current s)) with
        | None => (Ok 0, s)
        | Some r =>
            match fold_left set_column values (Ok r) with
            | Ok r' =>
                if row_accepted (current s) (other_rows id (products (current s))) r'
                then (Ok 1, set_products (replace_row id r' (products (current s))) s)
                else (Raise IntegrityError, s)
            | Raise e => (Raise e, s)
            end
        end
      else (Raise DataError, s)
    else (Raise StatementError, s).

(** [session.query(Product).where(Product.id == id).delete()]: the rows
    with that primary key are removed; the result is their number.  No
    table refers to [products], so nothing holds a row back.  An [id]
    outside the range of the column is an error of the statement. *)
Definition query_delete (id : Z) : M Session Z :=
  fun s =>
    if in_int32 id then
      let ps := products (current s) in
      (Ok (Z.of_nat (List.length (filter (fun r => ProductRow.id r =? id) ps))),
       set_products (other_rows id ps) s)
    else (Raise DataError, s).

(* ================================================================= *)
(** ** LIKE *)

Definition is_empty (s : string) : bool :=
  match s with
  | EmptyString => true
  | String _ _ => false
  end.

(** Strings are the bytes of their UTF-8 text.  A byte [10xxxxxx]
    continues the character that began before it. *)
Definition is_continuation (c : ascii) : bool :=
  let n := nat_of_ascii c in
  ((128 <=? n) && (n <=? 191))%nat.

(** The text after the character whose first byte was just read. *)
Fixpoint skip_continuation (s : string) : string :=
  match s with
  | EmptyString => EmptyString
  | String c rest => if is_continuation c then skip_continuation rest else s
  end.

(** [s] is empty or begins with the first byte of a character. *)
Definition starts_character (s : string) : bool :=
  match s with
  | EmptyString => true
  | String c _ => negb (is_continuation c)
  end.

(** [s LIKE pattern], as PostgreSQL matches in a UTF-8 database: [%]
    stands for any run of characters, the match going on where the text is
    or where a later character starts; [_] for any one character, all its
    bytes; a backslash takes the next byte of the pattern literally; every
    other byte stands for itself.  A pattern that ends in a lone backslash
    is an error in PostgreSQL; the patterns built below end in [%] and
    never reach that case, which reads [false] here. *)
Fixpoint like (pattern : string) : string -> bool :=
  match pattern with
  | EmptyString => is_empty
  | String c p =>
      if Ascii.eqb c "%" then
        fun s =>
          like p s
          || match s with
             | EmptyString => false
             | String _ s' =>
                 (fix any (t : string) : bool :=
                    starts_character t && like p t
                    || match t with
                       | EmptyString => false
                       | String _ t' => any t'
                       end) s'
             end
      else if Ascii.eqb c "_" then
        fun s => match s with
                 | EmptyString => false
                 | String _ s' => like p (skip_continuation s')
                 end
      else if Ascii.eqb c "\" then
        match p with
        | EmptyString => fun _ => false
        | String c' p' =>
            fun s => match s with
                     | EmptyString => false
                     | String d s' => Ascii.eqb c' d && like p' s'
                     end
        end
      else
        fun s => match s with
                 | EmptyString => false
                 | String d s' => Ascii.eqb c d && like p s'
                 end
  end.

(** What [%] followed by [p] matches after the first character of a text:
    [p] matches [t] where it is, if a character starts there, or where a
    later character starts. *)
Fixpoint like_later (p t : string) : bool :=
  starts_character t && like p t
  || match t with
     | EmptyString => false
     | String _ t' => like_later p t'
     end.

(** [Product.name.like(f"%{search}%")]. *)
Definition name_like (search : string) (r : ProductRow.t) : bool :=
  like ("%" ++ search ++ "%") (ProductRow.name r).

Definition matching (search : string) (ps : list ProductRow.t) : list ProductRow.t :=
  filter (name_like search) ps.

(* ================================================================= *)
(** ** Query parameters *)

(** What [query_params.get(key, default)] can give: the text of a
    parameter, or the default the handler wrote, an [int] for [offset] and
    [limit]. *)
Inductive pyobj : Type :=
| PyInt (n : Z)
| PyStr (s : string).

(** [str(x)], as an f-string applies it. *)
Definition str (x : pyobj) : string :=
  match x with
  | PyInt n => str_of_Z n
  | PyStr s => s
  end.

(** The query string as chalice's [MultiDict]: the pairs in the order of
    the URL; a key that is repeated reads as its last value. *)
Fixpoint multidict_last (key : string) (d : list (string * string)) : option string :=
  match d with
  | [] => None
  | (k, v) :: d' =>
      match multidict_last key d' with
      | Some v' => Some v'
      | None => if String.eqb k key then Some v else None
      end
  end.

Definition multidict_get (d : list (string * string)) (key : string) (default : pyobj) : pyobj :=
  match multidict_last key d with
  | Some v => PyStr v
  | None => default
  end.

(** ASCII white space, as [int] strips it. *)
Definition is_space (c : ascii) : bool :=
  let n := nat_of_ascii c in
  ((9 <=? n) && (n <=? 13) || (28 <=? n) && (n <=? 32))%nat.

Definition is_digit (c : ascii) : bool :=
  let n := nat_of_ascii c in
  ((48 <=? n) && (n <=? 57))%nat.

Definition digit_value (c : ascii) : Z := Z.of_nat (nat_of_ascii c) - 48.

Fixpoint lstrip (s : string) : string :=
  match s with
  | EmptyString => EmptyString
  | String c rest => if is_space c then lstrip rest else s
  end.

Fixpoint all_space (s : string) : bool :=
  match s with
  | EmptyString => true
  | String c rest => is_space c && all_space rest
  end.

(** The digits of a decimal literal, with single underscores between
    digits, up to trailing white space.  [after_digit] says that the
    character before was a digit. *)
Fixpoint int_digits (s : string) (acc : Z) (after_digit : bool) : option Z :=
  match s with
  | EmptyString => if after_digit then Some acc else None
  | String c rest =>
      if is_digit c then int_digits rest (10 * acc + digit_value c) true
      else if Ascii.eqb c "_" then
        if after_digit then int_digits rest acc false else None
      else if is_space c then
        if after_digit && all_space rest then Some acc else None
      else None
  end.

(** The number of decimal digits in a text. *)
Fixpoint count_digits (s : string) : Z :=
  match s with
  | EmptyString => 0
  | String c rest => (if is_digit c then 1 else 0) + count_digits rest
  end.

(** [int] refuses a text of more digits than this. *)
Definition max_str_digits : Z := 4300.


(** [int(s)], base ten, as it reads a text of ASCII characters: white
    space around, a sign, digits with single underscores between them, at
    most [max_str_digits] digits.  Python reads the decimal digits and
    the white space of other scripts as well; a text with such characters
    is read here as no number, and the properties below that rest on a
    text not being a number are stated for ASCII texts. *)
Definition int_of_str (s : string) : option Z :=
  if max_str_digits <? count_digits s then None
  else
    match lstrip s with
    | String "-" rest => option_map Z.opp (int_digits rest 0 false)
    | String "+" rest => int_digits rest 0 false
    | rest => int_digits rest 0 false
    end.

(** SQLAlchemy's [asint], which [Query.offset] and [Query.limit] apply to
    what they are given. *)
Definition asint (x : pyobj) : result Z :=
  match x with
  | PyInt n => Ok n
  | PyStr s =>
      match int_of_str s with
      | Some n => Ok n
      | None => Raise ValueError
      end
  end.

(** The page [OFFSET offset LIMIT limit] cuts out of a result. *)
Definition page {A : Type} (offset limit : Z) (rows : list A) : list A :=
  firstn (Z.to_nat limit) (skipn (Z.to_nat offset) rows).

(** OFFSET and LIMIT are 64-bit and not negative. *)
Definition row_count_ok (n : Z) : bool := (0 <=? n) && (n <=? int64_max).

(** [session.query(Product).filter(Product.name.like(f"%{search}%"))
    .offset(offset).limit(limit).all()].  [offset] and [limit] are
    converted when the query is built; the driver refuses a pattern with a
    NUL character when the query is sent; PostgreSQL refuses an OFFSET or
    LIMIT that is negative or does not fit 64 bits. *)
Definition query_all (search offset limit : pyobj) : M Session (list Product.t) :=
  offset <- lift (asint offset) ;;
  limit <- lift (asint limit) ;;
  if has_nul (str search) then raise ValueError
  else if negb (row_count_ok offset && row_count_ok limit) then raise DataError
  else gets (fun s =>
         map Product.of_row (page offset limit (matching (str search) (products (current s))))).

(** [session.query(Product).filter(Product.name.like(f"%{search}%")).count()].
    The driver refuses a pattern with a NUL character here as well. *)
Definition query_count (search : pyobj) : M Session Z :=
  if has_nul (str search) then raise ValueError
  else gets (fun s => Z.of_nat (List.length (matching (str search) (products (current s))))).

(* ================================================================= *)
(** ** The handlers *)

(** How a call of a view function ends: it returns a [Response], it
    returns the exception it caught ([return e]), or an exception leaves
    it. *)
Inductive outcome : Type :=
| Returned (r : Response)
| ReturnedException (e : exn)
| Raised (e : exn).

Definition handler : Type := Database -> outcome * Database.

(** [try: ... except KeyError as e: return e], around a whole view. *)
Definition try_except_KeyError (view : M Database Response) : handler :=
  fun db =>
    match view db with
    | (Ok r, db') => (Returned r, db')
    | (Raise (KeyError k), db') => (ReturnedException (KeyError k), db')
    | (Raise e, db') => (Raised e, db')
    end.

(** The JSON body of a POST or PUT, read with [json_body.get]: a key that
    is absent, or null, reads [None]. *)
Module Body.
Record t : Type := mk {
  name : option string;
  price : option float;
  unit_measure_id : option Z
}.
End Body.

(** The loop of [indexProducts]: each product of the page is dumped and
    appended, and [totalRecords] is assigned in the same iteration. *)
Fixpoint index_loop (search : pyobj) (rows : list Product.t)
         (products : list value) (totalRecords : Z) : M Session (list value * Z) :=
  match rows with
  | [] => ret (products, totalRecords)
  | data :: rows' =>
      d <- ProductSchema_dump data ;;
      let products := (products ++ [VDict d])%list in
      totalRecords <- query_count search ;;
      index_loop search rows' products totalRecords
  end.

(** GET /products.  [query_params] is [None] when the request has no query
    string: chalice builds the [MultiDict] only when there is one. *)
Definition indexProducts (query_params : option (list (string * string))) : handler :=
  try_except_KeyError (
    params <- require query_params ;;
    let offset := multidict_get params "offset" (PyInt 0) in
    let limit := multidict_get params "limit" (PyInt 10) in
    let search := multidict_get params "search" (PyStr EmptyString) in
    let products := [] in
    let totalRecords := 0 in
    r <- with_session (
      rows <- query_all search offset limit ;;
      index_loop search rows products totalRecords) ;;
    let '(products, totalRecords) := r in
    msg <- lift (message "RecordFound" [("resource", "products")]) ;;
    ret (MakeResponsePaginate msg (VList products) totalRecords)).

(** GET /product/{id}. *)
Definition showProduct (id : Z) : handler :=
  try_except_KeyError (
    r <- with_session (
      data <- query_first id ;;
      match data with
      | None =>
          msg <- lift (message "RecordNotFound"
                         [("resource", "product"); ("id", str_of_Z id)]) ;;
          ret (inl (MakeResponse msg None (Some 400) None))
      | Some data =>
          product <- ProductSchema_dump data ;;
          ret (inr product)
      end) ;;
    match r with
    | inl response => ret response
    | inr product =>
        msg <- lift (message "RecordFound" [("resource", "product")]) ;;
        ret (MakeResponse msg (Some (VDict product)) None None)
    end).

(** POST /product. *)
Definition storeProduct (json_body : option Body.t) : handler :=
  try_except_KeyError (
    json_body <- require json_body ;;
    let product := {| Product.id := None;
                      Product.name := Body.name json_body;
                      Product.price := Body.price json_body;
                      Product.unit_measure_id := Body.unit_measure_id json_body |} in
    product <- with_session (
      product <- session_add_flush product ;;
      product <- ProductSchema_dump product ;;
      session_commit ;;;
      ret product) ;;
    msg <- lift (message "RecordCreated" [("resource", "product")]) ;;
    ret (MakeResponse msg (Some (VDict product)) None None)).

(** PUT /product/{id}.  The three assignments make the instance dirty; the
    session flushes it before its next query: the load of [unit_measures]
    inside the dump, or the UPDATE after it when there is no unit measure
    to load.  The flush is refused in the same cases either way. *)
Definition updateProduct (id : Z) (json_body : option Body.t) : handler :=
  try_except_KeyError (
    r <- with_session (
      product <- query_first id ;;
      match product with
      | None =>
          msg <- lift (message "RecordNotFound"
                         [("resource", "product"); ("id", str_of_Z id)]) ;;
          ret (inl (MakeResponse msg None (Some 400) None))
      | Some product =>
          json_body <- require json_body ;;
          let product := {| Product.id := Product.id product;
                            Product.name := Body.name json_body;
                            Product.price := Body.price json_body;
                            Product.unit_measure_id := Body.unit_measure_id json_body |} in
          session_flush_dirty id product ;;;
          product <- ProductSchema_dump product ;;
          _ <- query_update id product ;;
          session_commit ;;;
          ret (inr product)
      end) ;;
    match r with
    | inl response => ret response
    | inr product =>
        msg <- lift (message "RecordUpdated"
                       [("resource", "product"); ("id", str_of_Z id)]) ;;
        ret (MakeResponse msg (Some (VDict product)) None None)
    end).

(** DELETE /product/{id}. *)
Definition destroyProduct (id : Z) : handler :=
  try_except_KeyError (
    r <- with_session (
      product <- query_first id ;;
      match product with
      | None =>
          msg <- lift (message "RecordNotFound"
                         [("resource", "product"); ("id", str_of_Z id)]) ;;
          ret (inl (MakeResponse msg None (Some 400) None))
      | Some _ =>
          product <- query_delete id ;;
          session_commit ;;;
          ret (inr product)
      end) ;;
    match r with
    | inl response => ret response
    | inr _ =>
        msg <- lift (message "RecordDeleted"
                       [("resource", "product"); ("id", str_of_Z id)]) ;;
        ret (MakeResponse msg None None None)
    end).

(** The routes of the application.  An [id] is the integer of the path
    segment, written as [str] prints it: in decimal, without blanks, plus
    sign or leading zeros. *)
Inductive request : Type :=
| GET_products (query_params : option (list (string * string)))
| GET_product (id : Z)
| POST_product (json_body : option Body.t)
| PUT_product (id : Z) (json_body : option Body.t)
| DELETE_product (id : Z).

Definition route (q : request) : handler :=
  match q with
  | GET_products query_params => indexProducts query_params
  | GET_product id => showProduct id
  | POST_product json_body => storeProduct json_body
  | PUT_product id json_body => updateProduct id json_body
  | DELETE_product id => destroyProduct id
  end.

(* ================================================================= *)
(** ** Vocabulary of the statements *)

(** A field of the envelope a response carries. *)
Definition field (key : string) (r : Response) : option value :=
  dict_get key (body r).

(** The envelope with the given status label, code, message and data, and
    no error. *)
Definition envelope (status : string) (code : Z) (message : string) (data : value) : Response :=
  {| body := [ ("status", VStr status);
               ("code", VInt code);
               ("message", VStr message);
               ("error", VNone);
               ("data", data) ];
     http_status := 200 |}.

(** The paginated envelope of a successful listing. *)
Definition paginated_envelope (message : string) (data : list value) (total_records : Z) : Response :=
  {| body := [ ("status", VStr "OK");
               ("code", VInt 200);
               ("message", VStr message);
               ("error", VNone);
               ("data", VList data);
               ("total_records", VInt total_records) ];
     http_status := 200 |}.

(** The fields a route's envelope has. *)
Definition fields_of (q : request) : list string :=
  match q with
  | GET_products _ => paginated_fields
  | _ => envelope_fields
  end.

(** How a call of [q] may end on [db]: with a response that has the fields
    of [q]'s envelope, or with one of the exceptions the handlers do not
    catch. *)
Definition well_ended (q : request) (o : outcome) : Prop :=
  match o with
  | Returned r => keys (body r) = fields_of q
  | ReturnedException _ => False
  | Raised e =>
      e = AttributeError \/ e = ValueError \/ e = IntegrityError
      \/ e = DataError \/ e = StatementError
  end.

(** The serialised view of a stored row, with its unit measure. *)
Definition ProductView (t : Tables) (r : ProductRow.t) : value :=
  VDict
    [ ("id", VInt (ProductRow.id r));
      ("name", VStr (ProductRow.name r));
      ("price", VFloat (ProductRow.price r));
      ("unit_measure_id", VInt (ProductRow.unit_measure_id r));
      ("unit_measures",
       dump_optional (fun u => VDict (UnitMeasureSchema_dump u))
         (find (fun m => UnitMeasure.id m =? ProductRow.unit_measure_id r)
               (unit_measures t))) ].

(** [name] contains [search] as a substring. *)
Fixpoint contains (search name : string) : bool :=
  String.prefix search name
  || match name with
     | EmptyString => false
     | String _ name' => contains search name'
     end.

(** The number of stored products whose name contains [search]. *)
Definition containing (search : string) (db : Database) : Z :=
  Z.of_nat (List.length
    (filter (fun r => contains search (ProductRow.name r)) (products (tables db)))).



Fixpoint distinct {A : Type} (eqb : A -> A -> bool) (l : list A) : bool :=
  match l with
  | [] => true
  | x :: l' => negb (existsb (eqb x) l') && distinct eqb l'
  end.

(** What the declared constraints and the sequence keep true of the stored
    products: the sequence has not gone below its start, every id is
    positive and was handed out by the sequence, ids and names are pairwise
    distinct, every unit measure referred to exists. *)
Definition consistent (db : Database) : bool :=
  let ps := products (tables db) in
  (0 <=? products_id_seq db)
  && forallb (fun r => (0 <? ProductRow.id r) && (ProductRow.id r <=? products_id_seq db)) ps
  && distinct Z.eqb (map ProductRow.id ps)
  && distinct String.eqb (map ProductRow.name ps)
  && forallb (fun r => has_unit_measure (ProductRow.unit_measure_id r)
                         (unit_measures (tables db))) ps.

(** The instance [storeProduct] builds from a payload. *)
Definition new_product (b : Body.t) : Product.t :=
  {| Product.id := None;
     Product.name := Body.name b;
     Product.price := Body.price b;
     Product.unit_measure_id := Body.unit_measure_id b |}.


(** The product a payload describes, with the id the sequence gives next
    and the price as posted: what the instance holds after the flush. *)
Definition posted_row (db : Database) (b : Body.t) : option ProductRow.t :=
  match Body.name b, Body.price b, Body.unit_measure_id b with
  | Some name, Some price, Some unit_measure_id =>
      Some {| ProductRow.id := products_id_seq db + 1;
              ProductRow.name := name;
              ProductRow.price := price;
              ProductRow.unit_measure_id := unit_measure_id |}
  | _, _, _ => None
  end.

(** The price as the table holds it. *)
Definition as_stored (r : ProductRow.t) : ProductRow.t :=
  {| ProductRow.id := ProductRow.id r;
     ProductRow.name := ProductRow.name r;
     ProductRow.price := stored_float (ProductRow.price r);
     ProductRow.unit_measure_id := ProductRow.unit_measure_id r |}.

(** The row a payload becomes in the table. *)
Definition created_row (db : Database) (b : Body.t) : option ProductRow.t :=
  option_map as_stored (posted_row db b).

Definition add_row (r : ProductRow.t) (db : Database) : Database :=
  {| tables := {| unit_measures := unit_measures (tables db);
                  products := products (tables db) ++ [r] |};
     products_id_seq := ProductRow.id r |}.

Definition remove_product (id : Z) (db : Database) : Database :=
  {| tables := {| unit_measures := unit_measures (tables db);
                  products := other_rows id (products (tables db)) |};
     products_id_seq := products_id_seq db |}.

(* ================================================================= *)
(** ** Sample data *)

Module Sample.
Definition kg : UnitMeasure.t := UnitMeasure.mk 1 "kg".

Definition flour : Body.t := Body.mk (Some "Flour") (Some 2.5%float) (Some 1).
Definition sugar : Body.t := Body.mk (Some "Sugar") (Some 3%float) (Some 1).

Definition flour_row : ProductRow.t := ProductRow.mk 1 "Flour" 2.5%float 1.

(** No product yet, one unit measure. *)
Definition db0 : Database := empty_database [kg].

(** After [POST /product] with [flour]. *)
Definition db1 : Database :=
  {| tables := {| unit_measures := [kg]; products := [flour_row] |};
     products_id_seq := 1 |}.
End Sample.

(* ================================================================= *)
(** ** Requests in sequence *)

(** The requests of a client, served one after the other on the database
    the one before left. *)
Fixpoint serve (qs : list request) (db : Database) : Database :=
  match qs with
  | [] => db
  | q :: qs' => serve qs' (snd (route q db))
  end.

(** The list a returned response carries as its data. *)
Definition data_list (o : outcome) : option (list value) :=
  match o with
  | Returned r =>
      match field "data" r with
      | Some (VList l) => Some l
      | _ => None
      end
  | _ => None
  end.

(** The total a returned response carries. *)
Definition total_records (o : outcome) : option Z :=
  match o with
  | Returned r =>
      match field "total_records" r with
      | Some (VInt n) => Some n
      | _ => None
      end
  | _ => None
  end.

(* ================================================================= *)
(** * Properties *)

(** ** The messages the handlers build *)

Lemma message_RecordFound (resource : string) :
  message "RecordFound" [("resource", resource)]
  = Ok ("The " ++ resource ++ " has been found successfully").
Proof. reflexivity. Qed.

Lemma message_RecordCreated (resource : string) :
  message "RecordCreated" [("resource", resource)]
  = Ok ("The " ++ resource ++ " has been created successfully").
Proof. reflexivity. Qed.

Lemma message_RecordNotFound (id : string) :
  message "RecordNotFound" [("resource", "product"); ("id", id)]
  = Ok ("The product with id '" ++ id ++ "' has not been found").
Proof. reflexivity. Qed.

Lemma message_RecordUpdated (id : string) :
  message "RecordUpdated" [("resource", "product"); ("id", id)]
  = Ok ("The product with id '" ++ id ++ "' has been updated successfully").
Proof. reflexivity. Qed.

(** The template of [RecordDeleted] has no blank after the closing quote. *)
Lemma message_RecordDeleted (id : string) :
  message "RecordDeleted" [("resource", "product"); ("id", id)]
  = Ok ("The product with id '" ++ id ++ "'has been deleted successfully").
Proof. reflexivity. Qed.

(** ** The envelope builders *)

Lemma MakeResponse_fields message data status_code error :
  keys (body (MakeResponse message data status_code error)) = envelope_fields.
Proof. reflexivity. Qed.

Lemma MakeResponsePaginate_fields message data totalRecords :
  keys (body (MakeResponsePaginate message data totalRecords)) = paginated_fields.
Proof. reflexivity. Qed.

(** C3.  [MakeResponse] builds an object with the five fields [status],
    [code], [message], [error] and [data], in which [code] is the status
    code given (200 when none is), [message] is the message given, [error]
    and [data] are the values given (null when none is), and [status] is
    ["OK"] for 200, ["BadRequest"] for 400 and ["InternalServerError"] for
    500. *)
Theorem MakeResponse_envelope :
  forall (message : string) (data error : option value) (status_code : option Z),
    let r := MakeResponse message data status_code error in
    keys (body r) = ["status"; "code"; "message"; "error"; "data"]
    /\ field "code" r = Some (VInt (default 200 status_code))
    /\ field "message" r = Some (VStr message)
    /\ field "error" r = Some (default VNone error)
    /\ field "data" r = Some (default VNone data)
    /\ field "status" (MakeResponse message data (Some 200) error) = Some (VStr "OK")
    /\ field "status" (MakeResponse message data None error) = Some (VStr "OK")
    /\ field "status" (MakeResponse message data (Some 400) error) = Some (VStr "BadRequest")
    /\ field "status" (MakeResponse message data (Some 500) error)
       = Some (VStr "InternalServerError").
Proof.
  intros message data error status_code r.
  repeat split; reflexivity.
Qed.

(** C10.  For a status code other than 400 and 500 (201, 404, 503, ...)
    the [status] field [MakeResponse] returns is the literal ["OK"]. *)
Theorem MakeResponse_status_OK_otherwise :
  forall (message : string) (data error : option value) (status_code : Z),
    status_code <> 400 ->
    status_code <> 500 ->
    field "status" (MakeResponse message data (Some status_code) error)
    = Some (VStr "OK").
Proof.
  intros message data error status_code H400 H500.
  unfold MakeResponse, field; cbn.
  destruct (Z.eqb_spec status_code 400) as [E | _]; [contradiction |].
  destruct (Z.eqb_spec status_code 500) as [E | _]; [contradiction |].
  reflexivity.
Qed.

Lemma MakeResponse_status_OK_otherwise_witness :
  field "status" (MakeResponse "Created" None (Some 201) None) = Some (VStr "OK")
  /\ field "status" (MakeResponse "Not Found" None (Some 404) None) = Some (VStr "OK")
  /\ field "status" (MakeResponse "Unavailable" None (Some 503) None) = Some (VStr "OK").
Proof.
  split; [| split]; apply MakeResponse_status_OK_otherwise; lia.
Defined.

(** ** Running a handler *)

Arguments message : simpl never.
Arguments str_of_Z : simpl never.
Arguments in_int32 : simpl never.
Arguments find_product : simpl never.
Arguments has_product_id : simpl never.

Ltac run_handler :=
  unfold route, indexProducts, showProduct, storeProduct, updateProduct, destroyProduct,
    try_except_KeyError, with_session, ProductSchema_dump, load_unit_measures,
    query_first, query_delete, session_commit,
    bind, lift, gets, modify, ret, raise, require;
  cbn.

Lemma find_product_none (id : Z) (ps : list ProductRow.t) :
  find_product id ps = None <-> has_product_id id ps = false.
Proof.
  unfold find_product, has_product_id.
  destruct (in_int32 id); cbn [andb]; [| tauto].
  induction ps as [| p ps IH]; cbn; [tauto |].
  destruct (ProductRow.id p =? id); cbn; [| exact IH].
  split; discriminate.
Qed.

Lemma find_product_some (id : Z) (ps : list ProductRow.t) (r : ProductRow.t) :
  find_product id ps = Some r ->
  in_int32 id = true /\ In r ps /\ ProductRow.id r = id.
Proof.
  unfold find_product. destruct (in_int32 id); [| discriminate].
  intros H. apply find_some in H as [Hin E].
  repeat split; [exact Hin | now apply Z.eqb_eq].
Qed.

Lemma has_product_id_in_range (id : Z) (ps : list ProductRow.t) :
  has_product_id id ps = true -> in_int32 id = true.
Proof.
  unfold has_product_id. intros H. now apply andb_prop in H as [H _].
Qed.

Lemma find_product_other_rows (id : Z) (ps : list ProductRow.t) :
  find_product id (other_rows id ps) = None.
Proof.
  unfold find_product, other_rows.
  destruct (in_int32 id); [| reflexivity].
  induction ps as [| p ps IH]; cbn; [reflexivity |].
  destruct (ProductRow.id p =? id) eqn:E; cbn; [exact IH |].
  now rewrite E.
Qed.

(** ** GET /product/{id} *)

(** An id outside the range of the column makes the lookup raise. *)
Lemma showProduct_out_of_range (db : Database) (id : Z) :
  in_int32 id = false -> showProduct id db = (Raised DataError, db).
Proof.
  destruct db as [[us ps] seq]; intros H.
  run_handler. now rewrite H.
Qed.

Lemma showProduct_missing (db : Database) (id : Z) :
  in_int32 id = true ->
  find_product id (products (tables db)) = None ->
  showProduct id db
  = (Returned (envelope "BadRequest" 400
                 ("The product with id '" ++ str_of_Z id ++ "' has not been found") VNone),
     db).
Proof.
  destruct db as [[us ps] seq]; cbn; intros Hr H.
  run_handler. rewrite Hr, H; cbn.
  now rewrite message_RecordNotFound.
Qed.

Lemma showProduct_found (db : Database) (id : Z) (r : ProductRow.t) :
  find_product id (products (tables db)) = Some r ->
  showProduct id db
  = (Returned (envelope "OK" 200 "The product has been found successfully"
                 (ProductView (tables db) r)),
     db).
Proof.
  destruct db as [[us ps] seq]; cbn; intros H.
  destruct (find_product_some _ _ _ H) as (Hr & _).
  run_handler. rewrite Hr, H; cbn.
  now rewrite message_RecordFound.
Qed.




(** ** DELETE /product/{id} *)

Lemma destroyProduct_out_of_range (db : Database) (id : Z) :
  in_int32 id = false -> destroyProduct id db = (Raised DataError, db).
Proof.
  destruct db as [[us ps] seq]; intros H.
  run_handler. now rewrite H.
Qed.

Lemma destroyProduct_missing (db : Database) (id : Z) :
  in_int32 id = true ->
  find_product id (products (tables db)) = None ->
  destroyProduct id db
  = (Returned (envelope "BadRequest" 400
                 ("The product with id '" ++ str_of_Z id ++ "' has not been found") VNone),
     db).
Proof.
  destruct db as [[us ps] seq]; cbn; intros Hr H.
  run_handler. rewrite Hr, H; cbn.
  now rewrite message_RecordNotFound.
Qed.

Lemma destroyProduct_found (db : Database) (id : Z) (r : ProductRow.t) :
  find_product id (products (tables db)) = Some r ->
  destroyProduct id db
  = (Returned (envelope "OK" 200
                 ("The product with id '" ++ str_of_Z id ++ "'has been deleted successfully")
                 VNone),
     remove_product id db).
Proof.
  destruct db as [[us ps] seq]; cbn; intros H.
  destruct (find_product_some _ _ _ H) as (Hr & _).
  run_handler. rewrite Hr, H; cbn.
  now rewrite message_RecordDeleted.
Qed.

(** C5.  DELETE /product/{id} on the stored product 1: the row is removed
    and the envelope has code 200 and null data, but its message is
    "The product with id '1'has been deleted successfully", without the
    blank the other messages have after the closing quote; it is not
    "The product with id '1' has been deleted successfully". *)
Theorem destroyProduct_message_lacks_blank :
  let r := envelope "OK" 200 "The product with id '1'has been deleted successfully" VNone in
  destroyProduct 1 Sample.db1 = (Returned r, remove_product 1 Sample.db1)
  /\ products (tables (remove_product 1 Sample.db1)) = []
  /\ field "message" r
     <> Some (VStr "The product with id '1' has been deleted successfully").
Proof.
  cbv zeta. split; [| split].
  - apply (destroyProduct_found Sample.db1 1 Sample.flour_row). reflexivity.
  - reflexivity.
  - cbn. discriminate.
Qed.

(** C7.  After a DELETE /product/{id} that succeeded (code 200), a GET of
    the same id returns the 400 not-found envelope, and so does a second
    DELETE of the same id; neither raises, and neither changes the
    tables. *)
Theorem destroyProduct_then_not_found :
  forall (db db' : Database) (id : Z) (r : Response),
    destroyProduct id db = (Returned r, db') ->
    field "code" r = Some (VInt 200) ->
    let not_found :=
      envelope "BadRequest" 400
        ("The product with id '" ++ str_of_Z id ++ "' has not been found") VNone in
    showProduct id db' = (Returned not_found, db')
    /\ destroyProduct id db' = (Returned not_found, db').
Proof.
  intros db db' id r H Hcode not_found.
  destruct (in_int32 id) eqn:Hr.
  2:{ rewrite (destroyProduct_out_of_range db id Hr) in H. discriminate H. }
  destruct (find_product id (products (tables db))) as [p |] eqn:F.
  - rewrite (destroyProduct_found db id p F) in H.
    injection H as _ <-.
    assert (F' : find_product id (products (tables (remove_product id db))) = None)
      by apply find_product_other_rows.
    split.
    + now apply showProduct_missing.
    + now apply destroyProduct_missing.
  - rewrite (destroyProduct_missing db id Hr F) in H.
    injection H as <- _. discriminate Hcode.
Qed.

Lemma destroyProduct_then_not_found_witness :
  showProduct 1 (remove_product 1 Sample.db1)
  = (Returned (envelope "BadRequest" 400 "The product with id '1' has not been found" VNone),
     remove_product 1 Sample.db1)
  /\ destroyProduct 1 (remove_product 1 Sample.db1)
     = (Returned (envelope "BadRequest" 400 "The product with id '1' has not been found" VNone),
        remove_product 1 Sample.db1).
Proof.
  apply (destroyProduct_then_not_found Sample.db1 (remove_product 1 Sample.db1) 1
           (envelope "OK" 200 "The product with id '1'has been deleted successfully" VNone)).
  - reflexivity.
  - reflexivity.
Defined.

(** ** POST /product *)

Arguments refused_values : simpl never.
Arguments stored_float : simpl never.

Lemma bounded_ids_above (seq : Z) (ps : list ProductRow.t) :
  forallb (fun r => (0 <? ProductRow.id r) && (ProductRow.id r <=? seq)) ps = true ->
  existsb (fun r => ProductRow.id r =? seq + 1) ps = false.
Proof.
  induction ps as [| p ps IH]; cbn; [reflexivity |].
  intros H. apply andb_prop in H as [Hp Hps].
  apply andb_prop in Hp as [_ Hle]. apply Z.leb_le in Hle.
  rewrite (IH Hps), orb_false_r.
  apply Z.eqb_neq. lia.
Qed.



Lemma storeProduct_no_body (db : Database) :
  storeProduct None db = (Raised AttributeError, db).
Proof. reflexivity. Qed.

Lemma refused_values_exn (product : Product.t) (e : exn) :
  refused_values product = Some e -> e = ValueError \/ e = DataError.
Proof.
  unfold refused_values.
  destruct (optional_has_nul (Product.name product)); [intros [= <-]; now left |].
  destruct (Product.unit_measure_id product) as [u |]; [| discriminate].
  destruct (in_int32 u); [discriminate | intros [= <-]; now right].
Qed.

(** The driver or a column type refuses the values: nothing is sent or
    nothing is run, and the sequence keeps its value. *)
Lemma storeProduct_values_refused (db : Database) (b : Body.t) (e : exn) :
  refused_values (new_product b) = Some e ->
  storeProduct (Some b) db = (Raised e, db).
Proof.
  destruct db as [[us ps] seq]. intros H.
  run_handler. unfold session_add_flush.
  change {| Product.id := None; Product.name := Body.name b;
            Product.price := Body.price b;
            Product.unit_measure_id := Body.unit_measure_id b |}
    with (new_product b).
  rewrite H; cbn.
  destruct (refused_values_exn _ _ H) as [-> | ->]; reflexivity.
Qed.

(** The sequence has no value left. *)
Lemma storeProduct_sequence_exhausted (db : Database) (b : Body.t) :
  refused_values (new_product b) = None ->
  (products_id_seq db <? int32_max) = false ->
  storeProduct (Some b) db = (Raised DataError, db).
Proof.
  destruct db as [[us ps] seq]. cbn. intros H Hseq.
  run_handler. unfold session_add_flush.
  change {| Product.id := None; Product.name := Body.name b;
            Product.price := Body.price b;
            Product.unit_measure_id := Body.unit_measure_id b |}
    with (new_product b).
  rewrite H; cbn. now rewrite Hseq.
Qed.

Lemma storeProduct_accepted (db : Database) (b : Body.t) (p : ProductRow.t) :
  refused_values (new_product b) = None ->
  (products_id_seq db <? int32_max) = true ->
  posted_row db b = Some p ->
  row_accepted (tables db) (products (tables db)) (as_stored p) = true ->
  storeProduct (Some b) db
  = (Returned (envelope "OK" 200 "The product has been created successfully"
                 (ProductView (tables db) p)),
     add_row (as_stored p) db).
Proof.
  destruct db as [[us ps] seq], b as [[n |] [x |] [u |]]; cbn; try discriminate.
  intros Hv Hseq [= <-] H.
  run_handler. unfold session_add_flush.
  change {| Product.id := None; Product.name := Some n; Product.price := Some x;
            Product.unit_measure_id := Some u |}
    with (new_product (Body.mk (Some n) (Some x) (Some u))).
  rewrite Hv; cbn. rewrite Hseq; cbn.
  unfold as_stored in H; cbn in H. rewrite H; cbn.
  now rewrite message_RecordCreated.
Qed.

Lemma storeProduct_refused (db : Database) (b : Body.t) :
  refused_values (new_product b) = None ->
  (products_id_seq db <? int32_max) = true ->
  match posted_row db b with
  | Some p => row_accepted (tables db) (products (tables db)) (as_stored p) = false
  | None => True
  end ->
  storeProduct (Some b) db
  = (Raised IntegrityError,
     {| tables := tables db; products_id_seq := products_id_seq db + 1 |}).
Proof.
  destruct db as [[us ps] seq]. cbn. intros Hv Hseq H.
  run_handler. unfold session_add_flush.
  change {| Product.id := None; Product.name := Body.name b;
            Product.price := Body.price b;
            Product.unit_measure_id := Body.unit_measure_id b |}
    with (new_product b).
  rewrite Hv; cbn. rewrite Hseq; cbn.
  destruct b as [[n |] [x |] [u |]]; cbn in *; try reflexivity.
  unfold as_stored in H; cbn in H. now rewrite H.
Qed.

Lemma posted_row_id (db : Database) (b : Body.t) (p : ProductRow.t) :
  posted_row db b = Some p -> ProductRow.id p = products_id_seq db + 1.
Proof.
  unfold posted_row.
  destruct (Body.name b), (Body.price b), (Body.unit_measure_id b); try discriminate.
  now intros [= <-].
Qed.




Example storeProduct_flour :
  storeProduct (Some Sample.flour) Sample.db0
  = (Returned (envelope "OK" 200 "The product has been created successfully"
                 (VDict [ ("id", VInt 1); ("name", VStr "Flour");
                          ("price", VFloat 2.5%float); ("unit_measure_id", VInt 1);
                          ("unit_measures",
                           VDict [("id", VInt 1); ("name", VStr "kg")]) ])),
     Sample.db1).
Proof. reflexivity. Qed.

(** The sign of a zero price is lost on the way to the table: the answer
    of the POST shows the price as posted, the row holds zero. *)
Example storeProduct_negative_zero :
  exists db' : Database,
    storeProduct (Some (Body.mk (Some "Salt") (Some (-0)%float) (Some 1))) Sample.db0
    = (Returned (envelope "OK" 200 "The product has been created successfully"
                   (VDict [ ("id", VInt 1); ("name", VStr "Salt");
                            ("price", VFloat (-0)%float); ("unit_measure_id", VInt 1);
                            ("unit_measures",
                             VDict [("id", VInt 1); ("name", VStr "kg")]) ])),
       db')
    /\ products (tables db') = [ProductRow.mk 1 "Salt" 0%float 1].
Proof. eexists. split; reflexivity. Qed.

(** ** PUT /product/{id} *)

Lemma updateProduct_out_of_range (db : Database) (id : Z) (json_body : option Body.t) :
  in_int32 id = false -> updateProduct id json_body db = (Raised DataError, db).
Proof.
  destruct db as [[us ps] seq]; intros H.
  run_handler. now rewrite H.
Qed.

Lemma updateProduct_missing (db : Database) (id : Z) (json_body : option Body.t) :
  in_int32 id = true ->
  find_product id (products (tables db)) = None ->
  updateProduct id json_body db
  = (Returned (envelope "BadRequest" 400
                 ("The product with id '" ++ str_of_Z id ++ "' has not been found") VNone),
     db).
Proof.
  destruct db as [[us ps] seq]; cbn; intros Hr H.
  run_handler. rewrite Hr, H; cbn.
  now rewrite message_RecordNotFound.
Qed.

(** The serialised product has the key [unit_measures], which is a
    relationship and not a column, so the query-level UPDATE that is given
    the serialised product is refused. *)
Lemma query_update_dump_refused (id : Z) (product : Product.t) (s0 s : Session)
      (d : list (string * value)) :
  ProductSchema_dump product s0 = (Ok d, s0) ->
  query_update id d s = (Raise StatementError, s).
Proof.
  unfold ProductSchema_dump, load_unit_measures, bind, gets, ret.
  intros [= <-]. reflexivity.
Qed.

(** On a stored product the handler never reaches its [return]: either
    there is no body, or the flush of the assignments is refused (by the
    driver, by a column type or by a constraint), or the query-level UPDATE
    is.  Nothing was committed, so the tables are as before. *)
Lemma updateProduct_found_raises (db : Database) (id : Z) (json_body : option Body.t)
      (r : ProductRow.t) :
  find_product id (products (tables db)) = Some r ->
  exists e : exn,
    updateProduct id json_body db = (Raised e, db)
    /\ (e = AttributeError \/ e = ValueError \/ e = IntegrityError
        \/ e = DataError \/ e = StatementError).
Proof.
  destruct db as [[us ps] seq]; cbn; intros H.
  destruct (find_product_some _ _ _ H) as (Hr & _).
  run_handler. rewrite Hr, H; cbn.
  destruct json_body as [b |]; cbn.
  2:{ exists AttributeError. split; [reflexivity | now left]. }
  unfold session_flush_dirty; cbn.
  match goal with
  | |- context [refused_values ?x] =>
      destruct (refused_values x) as [e |] eqn:Hv
  end; cbn.
  { destruct (refused_values_exn _ _ Hv) as [-> | ->].
    - exists ValueError. split; [reflexivity | tauto].
    - exists DataError. split; [reflexivity | tauto]. }
  destruct (Body.name b) as [n |], (Body.price b) as [p |],
           (Body.unit_measure_id b) as [u |]; cbn;
    try (exists IntegrityError; split; [reflexivity | tauto]).
  match goal with
  | |- context [if ?c then _ else _] => destruct c
  end; cbn.
  - exists StatementError. split; [reflexivity | tauto].
  - exists IntegrityError. split; [reflexivity | tauto].
Qed.

(** C6.  PUT /product/1 on the stored product "Flour" with the payload
    {name: "Sugar", price: 3.0, unit_measure_id: 1}: the handler does not
    return the 200 envelope; the query-level UPDATE that is given the
    serialised product raises, nothing is committed, and a GET of the same
    id afterwards still shows "Flour" at 2.5. *)
Theorem updateProduct_raises_and_keeps_row :
  updateProduct 1 (Some Sample.sugar) Sample.db1 = (Raised StatementError, Sample.db1)
  /\ showProduct 1 (snd (updateProduct 1 (Some Sample.sugar) Sample.db1))
     = (Returned (envelope "OK" 200 "The product has been found successfully"
                    (VDict [ ("id", VInt 1); ("name", VStr "Flour");
                             ("price", VFloat 2.5%float); ("unit_measure_id", VInt 1);
                             ("unit_measures",
                              VDict [("id", VInt 1); ("name", VStr "kg")]) ])),
        Sample.db1).
Proof. split; reflexivity. Qed.

(** ** GET /products *)

(** The loop dumps the rows of the page in order; [totalRecords] keeps the
    value it had when the page is empty and is the count of all matches as
    soon as the page has a row. *)
Lemma index_loop_run (search : pyobj) (rows : list ProductRow.t) :
  has_nul (str search) = false ->
  forall (acc : list value) (totalRecords : Z) (s : Session),
    index_loop search (map Product.of_row rows) acc totalRecords s
    = (Ok ((acc ++ map (ProductView (current s)) rows)%list,
           match rows with
           | [] => totalRecords
           | _ :: _ => Z.of_nat (List.length (matching (str search) (products (current s))))
           end),
       s).
Proof.
  intros Hnul.
  induction rows as [| r rows IH]; intros acc totalRecords s; cbn.
  - now rewrite app_nil_r.
  - unfold bind, ProductSchema_dump, load_unit_measures, gets, ret, query_count; cbn.
    rewrite Hnul. unfold gets.
    rewrite IH, <- app_assoc; cbn.
    now destruct rows.
Qed.

Lemma page_length {A : Type} (offset limit : Z) (rows : list A) :
  0 <= offset ->
  0 <= limit ->
  Z.of_nat (List.length (page offset limit rows))
  = Z.max 0 (Z.min limit (Z.of_nat (List.length rows) - offset)).
Proof.
  intros Ho Hl. unfold page.
  rewrite length_firstn, length_skipn. lia.
Qed.

Lemma page_nil {A : Type} (offset limit : Z) (rows : list A) :
  0 <= offset ->
  0 <= limit ->
  page offset limit rows = [] <-> (limit = 0 \/ Z.of_nat (List.length rows) <= offset).
Proof.
  intros Ho Hl.
  pose proof (page_length offset limit rows Ho Hl) as H.
  split.
  - intros E. rewrite E in H; cbn in H. lia.
  - intros E. apply length_zero_iff_nil. lia.
Qed.

(** GET /products without a query string: [query_params] is [None], and
    the first [query_params.get] raises. *)
Lemma indexProducts_no_query_string (db : Database) :
  indexProducts None db = (Raised AttributeError, db).
Proof. reflexivity. Qed.

Arguments row_count_ok : simpl never.
Arguments has_nul : simpl never.


(** GET /products with a query string whose [offset] and [limit], where
    given, read as integers that are not negative and fit 64 bits, and
    whose search text has no NUL character. *)
Lemma indexProducts_run (db : Database) (params : list (string * string))
      (offset limit : Z) :
  asint (multidict_get params "offset" (PyInt 0)) = Ok offset ->
  asint (multidict_get params "limit" (PyInt 10)) = Ok limit ->
  row_count_ok offset = true ->
  row_count_ok limit = true ->
  has_nul (str (multidict_get params "search" (PyStr EmptyString))) = false ->
  let search := str (multidict_get params "search" (PyStr EmptyString)) in
  let found := matching search (products (tables db)) in
  let rows := page offset limit found in
  indexProducts (Some params) db
  = (Returned (paginated_envelope "The products has been found successfully"
                 (map (ProductView (tables db)) rows)
                 match rows with
                 | [] => 0
                 | _ :: _ => Z.of_nat (List.length found)
                 end),
     db).
Proof.
  intros Eo El Ho Hl Hs search found rows.
  destruct db as [[us ps] seq].
  run_handler. unfold query_all, bind, lift, gets, raise.
  rewrite Eo, El, Hs, Ho, Hl; cbn.
  rewrite (index_loop_run _ _ Hs); cbn.
  now rewrite message_RecordFound.
Qed.

(** ** LIKE and substrings *)

Lemma like_percent (p s : string) :
  like (String "%" p) s
  = like p s || match s with
                | EmptyString => false
                | String _ s' => like_later p s'
                end.
Proof.
  destruct s as [| c s]; [reflexivity |].
  cbn [like]. cbn [Ascii.eqb Bool.eqb]. cbv iota. f_equal.
  induction s as [| d s IH]; [reflexivity |].
  cbn [like_later]. now rewrite <- IH.
Qed.

Lemma like_later_end (t : string) : like_later EmptyString t = true.
Proof.
  induction t as [| c t IH]; [reflexivity |].
  cbn [like_later]. now rewrite IH, orb_true_r.
Qed.

Lemma like_percent_only (s : string) : like "%" s = true.
Proof.
  rewrite like_percent. destruct s as [| c s]; [reflexivity |].
  now rewrite like_later_end, orb_true_r.
Qed.








(** ** Pagination *)



(** C1.  GET /products?search=Flo&offset=1 over the one stored product
    "Flour": one product's name contains the search text, so N = 1; the data
    list is empty, as min(limit, N - offset) = 0 says, but [total_records]
    is 0 and not N: the count is assigned inside the loop over the page,
    which has no row to run on.  The same happens with limit=0. *)
Theorem indexProducts_total_records_of_empty_page :
  containing "Flo" Sample.db1 = 1
  /\ indexProducts (Some [("search", "Flo"); ("offset", "1")]) Sample.db1
     = (Returned (paginated_envelope "The products has been found successfully" [] 0),
        Sample.db1)
  /\ indexProducts (Some [("search", "Flo"); ("limit", "0")]) Sample.db1
     = (Returned (paginated_envelope "The products has been found successfully" [] 0),
        Sample.db1).
Proof. repeat split. Qed.

(** C9.  GET /products with no query string at all: [query_params] is
    [None], the first [query_params.get] raises [AttributeError], which
    the handler does not catch; no envelope is returned, whatever is
    stored. *)
Theorem indexProducts_without_query_string_raises :
  forall db : Database,
    indexProducts None db = (Raised AttributeError, db)
    /\ forall r : Response, fst (indexProducts None db) <> Returned r.
Proof.
  intros db. split; [reflexivity | discriminate].
Qed.

(** C2.  POST /product with a name that is already stored: the INSERT is
    refused, [IntegrityError] is not a [KeyError] and leaves the handler;
    the handler returns no envelope. *)
Theorem storeProduct_duplicate_name_raises :
  storeProduct (Some Sample.flour) Sample.db1
  = (Raised IntegrityError,
     {| tables := tables Sample.db1; products_id_seq := 2 |})
  /\ forall r : Response,
       fst (route (POST_product (Some Sample.flour)) Sample.db1) <> Returned r.
Proof. split; [reflexivity | discriminate]. Qed.

(** ** Every outcome of every route *)

Lemma asint_raises (x : pyobj) (e : exn) : asint x = Raise e -> e = ValueError.
Proof.
  destruct x as [n | s]; cbn; [discriminate |].
  destruct (int_of_str s); [discriminate | now intros [= <-]].
Qed.

Lemma indexProducts_bad_parameters (db : Database) (params : list (string * string)) :
  match asint (multidict_get params "offset" (PyInt 0)),
        asint (multidict_get params "limit" (PyInt 10)) with
  | Ok offset, Ok limit =>
      (has_nul (str (multidict_get params "search" (PyStr EmptyString))) = true ->
       indexProducts (Some params) db = (Raised ValueError, db))
      /\ (has_nul (str (multidict_get params "search" (PyStr EmptyString))) = false ->
          row_count_ok offset && row_count_ok limit = false ->
          indexProducts (Some params) db = (Raised DataError, db))
  | _, _ => indexProducts (Some params) db = (Raised ValueError, db)
  end.
Proof.
  destruct db as [[us ps] seq].
  destruct (asint (multidict_get params "offset" (PyInt 0))) as [o | e] eqn:Eo.
  - destruct (asint (multidict_get params "limit" (PyInt 10))) as [l | e] eqn:El.
    + split.
      * intros H. run_handler. unfold query_all, bind, lift, gets, raise.
        now rewrite Eo, El, H.
      * intros H H'. run_handler. unfold query_all, bind, lift, gets, raise.
        now rewrite Eo, El, H, H'.
    + apply asint_raises in El as Ee; subst e.
      run_handler. unfold query_all, bind, lift, gets, raise.
      now rewrite Eo, El.
  - apply asint_raises in Eo as Ee; subst e.
    run_handler. unfold query_all, bind, lift, gets, raise.
    now rewrite Eo.
Qed.

(** The ways GET /products with a query string can end. *)
Lemma indexProducts_cases (db : Database) (params : list (string * string)) :
  indexProducts (Some params) db = (Raised ValueError, db)
  \/ indexProducts (Some params) db = (Raised DataError, db)
  \/ exists (data : list value) (total : Z),
       indexProducts (Some params) db
       = (Returned (paginated_envelope "The products has been found successfully"
                      data total),
          db).
Proof.
  pose proof (indexProducts_bad_parameters db params) as Hbad.
  destruct (asint (multidict_get params "offset" (PyInt 0))) as [o | e] eqn:Eo;
    [destruct (asint (multidict_get params "limit" (PyInt 10))) as [l | e] eqn:El |];
    [| now left | now left].
  destruct Hbad as [Hnul Hrange].
  destruct (has_nul (str (multidict_get params "search" (PyStr EmptyString)))) eqn:Hs;
    [left; now apply Hnul |].
  destruct (row_count_ok o) eqn:Ho; [| right; left; now apply Hrange].
  destruct (row_count_ok l) eqn:Hl; [| right; left; now apply Hrange].
  right; right. do 2 eexists.
  exact (indexProducts_run db params o l Eo El Ho Hl Hs).
Qed.

(** The ways POST /product with a body can end. *)
Lemma storeProduct_cases (db : Database) (b : Body.t) :
  storeProduct (Some b) db = (Raised ValueError, db)
  \/ storeProduct (Some b) db = (Raised DataError, db)
  \/ storeProduct (Some b) db
     = (Raised IntegrityError,
        {| tables := tables db; products_id_seq := products_id_seq db + 1 |})
  \/ exists p : ProductRow.t,
       posted_row db b = Some p
       /\ (products_id_seq db <? int32_max) = true
       /\ row_accepted (tables db) (products (tables db)) (as_stored p) = true
       /\ storeProduct (Some b) db
          = (Returned (envelope "OK" 200 "The product has been created successfully"
                         (ProductView (tables db) p)),
             add_row (as_stored p) db).
Proof.
  destruct (refused_values (new_product b)) as [e |] eqn:Hv.
  { rewrite (storeProduct_values_refused db b e Hv).
    destruct (refused_values_exn _ _ Hv) as [-> | ->]; tauto. }
  destruct (products_id_seq db <? int32_max) eqn:Hseq.
  2:{ right; left. now apply storeProduct_sequence_exhausted. }
  pose proof (storeProduct_accepted db b) as Hacc.
  pose proof (storeProduct_refused db b Hv Hseq) as Href.
  destruct (posted_row db b) as [p |] eqn:Hp.
  - destruct (row_accepted (tables db) (products (tables db)) (as_stored p)) eqn:A.
    + right; right; right. exists p.
      split; [reflexivity |]. split; [reflexivity |]. split; [exact A |].
      exact (Hacc p Hv Hseq eq_refl A).
    + right; right; left. exact (Href eq_refl).
  - right; right; left. exact (Href I).
Qed.

(** The ways a route that looks a product up by id can end when the id is
    in range; out of range it raises [DataError]. *)
Lemma lookup_cases (db : Database) (id : Z) :
  in_int32 id = false
  \/ (in_int32 id = true /\ find_product id (products (tables db)) = None)
  \/ exists r : ProductRow.t, find_product id (products (tables db)) = Some r.
Proof.
  destruct (in_int32 id) eqn:Hr; [| now left].
  destruct (find_product id (products (tables db))) as [r |] eqn:F.
  - right; right. now exists r.
  - right; left. now split.
Qed.

(** A handler that returns, returns an envelope with exactly the fields
    [status], [code], [message], [error] and [data] (and [total_records]
    for the listing); the [return e] of the [except KeyError] clauses is
    never reached; every other call ends with an exception leaving the
    handler. *)
Theorem route_well_ended :
  forall (q : request) (db : Database), well_ended q (fst (route q db)).
Proof.
  intros [[params |] | id | [b |] | id json_body | id] db; cbn [route].
  - destruct (indexProducts_cases db params) as [H | [H | (data & total & H)]];
      rewrite H; cbn; tauto.
  - rewrite indexProducts_no_query_string; cbn. tauto.
  - destruct (lookup_cases db id) as [Hr | [[Hr F] | [r F]]].
    + rewrite (showProduct_out_of_range db id Hr); cbn. tauto.
    + now rewrite (showProduct_missing db id Hr F).
    + now rewrite (showProduct_found db id r F).
  - destruct (storeProduct_cases db b) as [H | [H | [H | (p & _ & _ & _ & H)]]];
      rewrite H; cbn; tauto.
  - rewrite storeProduct_no_body; cbn. tauto.
  - destruct (lookup_cases db id) as [Hr | [[Hr F] | [r F]]].
    + rewrite (updateProduct_out_of_range db id json_body Hr); cbn. tauto.
    + now rewrite (updateProduct_missing db id json_body Hr F).
    + destruct (updateProduct_found_raises db id json_body r F) as [e [-> He]]; cbn.
      tauto.
  - destruct (lookup_cases db id) as [Hr | [[Hr F] | [r F]]].
    + rewrite (destroyProduct_out_of_range db id Hr); cbn. tauto.
    + now rewrite (destroyProduct_missing db id Hr F).
    + now rewrite (destroyProduct_found db id r F).
Qed.

(** ** The stored products stay consistent *)

Lemma existsb_map_fold {A B : Type} (f : A -> B) (g : B -> bool) (l : list A) :
  existsb g (map f l) = existsb (fun a => g (f a)) l.
Proof.
  induction l as [| a l IH]; cbn; [reflexivity | now rewrite IH].
Qed.

Lemma distinct_snoc {A : Type} (eqb : A -> A -> bool) (l : list A) (x : A) :
  distinct eqb l = true ->
  existsb (fun y => eqb y x) l = false ->
  distinct eqb (l ++ [x]) = true.
Proof.
  induction l as [| a l IH]; cbn; [reflexivity |].
  intros Hd Hx.
  apply andb_prop in Hd as [Ha Hd].
  apply orb_false_elim in Hx as [Hax Hx].
  rewrite (IH Hd Hx), andb_true_r.
  rewrite existsb_app; cbn.
  apply negb_true_iff in Ha. now rewrite Ha, Hax.
Qed.

Lemma existsb_filter_false {A : Type} (g p : A -> bool) (l : list A) :
  existsb g l = false -> existsb g (filter p l) = false.
Proof.
  induction l as [| a l IH]; cbn; [reflexivity |].
  intros H. apply orb_false_elim in H as [Ha Hl].
  destruct (p a); cbn; [now rewrite Ha, (IH Hl) | now apply IH].
Qed.

Lemma distinct_map_filter {A B : Type} (eqb : B -> B -> bool) (f : A -> B)
      (p : A -> bool) (l : list A) :
  distinct eqb (map f l) = true ->
  distinct eqb (map f (filter p l)) = true.
Proof.
  induction l as [| a l IH]; cbn; [reflexivity |].
  intros H. apply andb_prop in H as [Ha Hl].
  destruct (p a); cbn; [| now apply IH].
  rewrite (IH Hl), andb_true_r.
  apply negb_true_iff in Ha. apply negb_true_iff.
  rewrite existsb_map_fold in *.
  now apply existsb_filter_false.
Qed.

Lemma forallb_filter_true {A : Type} (g p : A -> bool) (l : list A) :
  forallb g l = true -> forallb g (filter p l) = true.
Proof.
  rewrite !forallb_forall. intros H a Ha.
  apply filter_In in Ha as [Ha _]. now apply H.
Qed.

Lemma consistent_iff (db : Database) :
  consistent db = true
  <-> 0 <= products_id_seq db
      /\ forallb (fun r => (0 <? ProductRow.id r) && (ProductRow.id r <=? products_id_seq db))
                 (products (tables db)) = true
      /\ distinct Z.eqb (map ProductRow.id (products (tables db))) = true
      /\ distinct String.eqb (map ProductRow.name (products (tables db))) = true
      /\ forallb (fun r => has_unit_measure (ProductRow.unit_measure_id r)
                             (unit_measures (tables db)))
                 (products (tables db)) = true.
Proof.
  unfold consistent. rewrite !andb_true_iff, Z.leb_le. tauto.
Qed.

Lemma bounded_ids_weaken (seq seq' : Z) (ps : list ProductRow.t) :
  seq <= seq' ->
  forallb (fun r => (0 <? ProductRow.id r) && (ProductRow.id r <=? seq)) ps = true ->
  forallb (fun r => (0 <? ProductRow.id r) && (ProductRow.id r <=? seq')) ps = true.
Proof.
  intros Hle. rewrite !forallb_forall. intros H r Hr.
  specialize (H r Hr). apply andb_prop in H as [Hpos Hb].
  apply Z.leb_le in Hb. rewrite Hpos; cbn. apply Z.leb_le. lia.
Qed.

Lemma consistent_next_value (db : Database) :
  consistent db = true ->
  consistent {| tables := tables db; products_id_seq := products_id_seq db + 1 |} = true.
Proof.
  rewrite !consistent_iff; cbn. intros (Hseq & Hb & Hid & Hname & Hfk).
  repeat split; try assumption; [lia |].
  apply (bounded_ids_weaken (products_id_seq db)); [lia | assumption].
Qed.

Lemma consistent_add_row (db : Database) (r : ProductRow.t) :
  consistent db = true ->
  ProductRow.id r = products_id_seq db + 1 ->
  row_accepted (tables db) (products (tables db)) r = true ->
  consistent (add_row r db) = true.
Proof.
  rewrite !consistent_iff; cbn. intros (Hseq & Hb & Hid & Hname & Hfk) Hr Hacc.
  unfold row_accepted in Hacc.
  apply andb_prop in Hacc as [Hacc Hunit]. apply andb_prop in Hacc as [_ Hnew].
  apply negb_true_iff in Hnew.
  pose proof (bounded_ids_above _ _ Hb) as Hfresh. rewrite <- Hr in Hfresh.
  split; [lia |].
  split.
  { rewrite forallb_app; cbn. apply andb_true_intro; split.
    - apply (bounded_ids_weaken (products_id_seq db)); [lia | assumption].
    - rewrite andb_true_r. apply andb_true_intro; split; [apply Z.ltb_lt | apply Z.leb_le]; lia. }
  split.
  { rewrite map_app; cbn. apply distinct_snoc; [assumption |].
    now rewrite existsb_map_fold. }
  split.
  { rewrite map_app; cbn. apply distinct_snoc; [assumption |].
    now rewrite existsb_map_fold. }
  rewrite forallb_app. apply andb_true_intro; split; [exact Hfk |].
  cbn [forallb]. rewrite andb_true_r. exact Hunit.
Qed.

Lemma consistent_remove_product (db : Database) (id : Z) :
  consistent db = true -> consistent (remove_product id db) = true.
Proof.
  rewrite !consistent_iff; cbn. intros (Hseq & Hb & Hid & Hname & Hfk).
  unfold other_rows.
  repeat split; try assumption.
  - now apply forallb_filter_true.
  - now apply distinct_map_filter.
  - now apply distinct_map_filter.
  - now apply forallb_filter_true.
Qed.

(** Every call of every route, however it ends, leaves consistent what
    it found consistent: ids stay positive, distinct and below the
    sequence, names stay distinct, unit measures referred to stay
    stored. *)
Theorem route_keeps_consistent :
  forall (q : request) (db : Database),
    consistent db = true -> consistent (snd (route q db)) = true.
Proof.
  intros [[params |] | id | [b |] | id json_body | id] db Hdb; cbn [route].
  - destruct (indexProducts_cases db params) as [H | [H | (data & total & H)]];
      now rewrite H.
  - now rewrite indexProducts_no_query_string.
  - destruct (lookup_cases db id) as [Hr | [[Hr F] | [r F]]].
    + now rewrite (showProduct_out_of_range db id Hr).
    + now rewrite (showProduct_missing db id Hr F).
    + now rewrite (showProduct_found db id r F).
  - destruct (storeProduct_cases db b) as [H | [H | [H | (p & Hp & _ & A & H)]]];
      rewrite H; cbn [snd]; try assumption.
    + now apply consistent_next_value.
    + apply consistent_add_row; try assumption.
      exact (posted_row_id db b p Hp).
  - now rewrite storeProduct_no_body.
  - destruct (lookup_cases db id) as [Hr | [[Hr F] | [r F]]].
    + now rewrite (updateProduct_out_of_range db id json_body Hr).
    + now rewrite (updateProduct_missing db id json_body Hr F).
    + now destruct (updateProduct_found_raises db id json_body r F) as [e [-> _]].
  - destruct (lookup_cases db id) as [Hr | [[Hr F] | [r F]]].
    + now rewrite (destroyProduct_out_of_range db id Hr).
    + now rewrite (destroyProduct_missing db id Hr F).
    + rewrite (destroyProduct_found db id r F); cbn [snd].
      now apply consistent_remove_product.
Qed.

Lemma route_keeps_consistent_witness :
  consistent (snd (route (POST_product (Some Sample.sugar)) Sample.db1)) = true
  /\ consistent (snd (route (DELETE_product 1) Sample.db1)) = true.
Proof.
  split; apply route_keeps_consistent; reflexivity.
Defined.

(** ** Further properties of the routes *)






(** PUT /product/{id} on a stored product never returns: an exception
    leaves the handler and the tables are as they were. *)
Theorem updateProduct_on_stored_product_raises :
  forall (db : Database) (id : Z) (json_body : option Body.t),
    has_product_id id (products (tables db)) = true ->
    exists e : exn, updateProduct id json_body db = (Raised e, db).
Proof.
  intros db id json_body H.
  destruct (find_product id (products (tables db))) as [r |] eqn:F.
  - destruct (updateProduct_found_raises db id json_body r F) as [e [He _]].
    now exists e.
  - apply find_product_none in F. congruence.
Qed.

Lemma updateProduct_on_stored_product_raises_witness :
  exists e : exn,
    updateProduct 1 (Some Sample.sugar) Sample.db1 = (Raised e, Sample.db1).
Proof.
  apply (updateProduct_on_stored_product_raises Sample.db1 1 (Some Sample.sugar)).
  reflexivity.
Defined.

(** PUT and DELETE of an id within the range of the 32-bit column that no
    stored product has return the 400 not-found envelope and change
    nothing, whatever JSON body the PUT carries, or none. *)
Theorem updateProduct_destroyProduct_not_found :
  forall (db : Database) (id : Z) (json_body : option Body.t),
    in_int32 id = true ->
    has_product_id id (products (tables db)) = false ->
    let not_found :=
      envelope "BadRequest" 400
        ("The product with id '" ++ str_of_Z id ++ "' has not been found") VNone in
    updateProduct id json_body db = (Returned not_found, db)
    /\ destroyProduct id db = (Returned not_found, db).
Proof.
  intros db id json_body Hr H not_found.
  apply find_product_none in H. split.
  - now apply updateProduct_missing.
  - now apply destroyProduct_missing.
Qed.

Lemma updateProduct_destroyProduct_not_found_witness :
  updateProduct 9 None Sample.db1
  = (Returned (envelope "BadRequest" 400 "The product with id '9' has not been found" VNone),
     Sample.db1)
  /\ destroyProduct 9 Sample.db1
     = (Returned (envelope "BadRequest" 400 "The product with id '9' has not been found" VNone),
        Sample.db1).
Proof.
  apply (updateProduct_destroyProduct_not_found Sample.db1 9 None); reflexivity.
Defined.

(** DELETE /product/{id} on a stored product removes the rows with that id
    and no other row, and returns the envelope with code 200, null data and
    the [RecordDeleted] message as the table spells it. *)
Theorem destroyProduct_removes_row :
  forall (db : Database) (id : Z),
    has_product_id id (products (tables db)) = true ->
    destroyProduct id db
    = (Returned (envelope "OK" 200
                   ("The product with id '" ++ str_of_Z id
                    ++ "'has been deleted successfully") VNone),
       remove_product id db)
    /\ has_product_id id (products (tables (remove_product id db))) = false
    /\ forall r : ProductRow.t,
         In r (products (tables (remove_product id db)))
         <-> In r (products (tables db)) /\ ProductRow.id r <> id.
Proof.
  intros db id H.
  destruct (find_product id (products (tables db))) as [p |] eqn:F.
  2:{ apply find_product_none in F. congruence. }
  split; [now apply (destroyProduct_found db id p) |].
  split.
  - apply find_product_none, find_product_other_rows.
  - intros r. cbn. unfold other_rows. rewrite filter_In, negb_true_iff, Z.eqb_neq.
    reflexivity.
Qed.

Lemma destroyProduct_removes_row_witness :
  destroyProduct 1 Sample.db1
  = (Returned (envelope "OK" 200
                 ("The product with id '" ++ str_of_Z 1
                  ++ "'has been deleted successfully") VNone),
     remove_product 1 Sample.db1)
  /\ has_product_id 1 (products (tables (remove_product 1 Sample.db1))) = false
  /\ forall r : ProductRow.t,
       In r (products (tables (remove_product 1 Sample.db1)))
       <-> In r (products (tables Sample.db1)) /\ ProductRow.id r <> 1.
Proof.
  apply (destroyProduct_removes_row Sample.db1 1). reflexivity.
Defined.

Lemma matching_empty_search (ps : list ProductRow.t) :
  matching EmptyString ps = ps.
Proof.
  unfold matching.
  induction ps as [| p ps IH]; cbn [filter]; [reflexivity |].
  unfold name_like at 1. cbn [append].
  now rewrite like_percent, like_percent_only, IH.
Qed.

(** GET /products with a query string that has none of [offset], [limit]
    and [search]: they read 0, 10 and the empty string, so the first ten
    stored products are listed; the handler returns code 200 with the
    message "The products has been found successfully", also when nothing
    is stored. *)
Theorem indexProducts_defaults :
  forall (db : Database) (params : list (string * string)),
    multidict_last "offset" params = None ->
    multidict_last "limit" params = None ->
    multidict_last "search" params = None ->
    let rows := firstn 10 (products (tables db)) in
    indexProducts (Some params) db
    = (Returned (paginated_envelope "The products has been found successfully"
                   (map (ProductView (tables db)) rows)
                   match rows with
                   | [] => 0
                   | _ :: _ => Z.of_nat (List.length (products (tables db)))
                   end),
       db).
Proof.
  intros db params Ho Hl Hs rows.
  assert (Eo : asint (multidict_get params "offset" (PyInt 0)) = Ok 0)
    by (unfold multidict_get; now rewrite Ho).
  assert (El : asint (multidict_get params "limit" (PyInt 10)) = Ok 10)
    by (unfold multidict_get; now rewrite Hl).
  assert (Es : str (multidict_get params "search" (PyStr EmptyString)) = EmptyString)
    by (unfold multidict_get; now rewrite Hs).
  rewrite (indexProducts_run db params 0 10 Eo El eq_refl eq_refl)
    by (now rewrite Es).
  rewrite Es, matching_empty_search. reflexivity.
Qed.

Lemma indexProducts_defaults_witness :
  indexProducts (Some [("page", "2")]) Sample.db0
  = (Returned (paginated_envelope "The products has been found successfully" [] 0),
     Sample.db0).
Proof.
  apply (indexProducts_defaults Sample.db0 [("page", "2")]); reflexivity.
Defined.

(* ================================================================= *)
(** ** What a route does to the database *)

(** Splits a goal about [route q db] into the ways the call can end, and
    rewrites the call to its result in each. *)
Ltac route_cases q db :=
  destruct q as [[params |] | id | [b |] | id json_body | id]; cbn [route];
  [ let H := fresh "H" in
    destruct (indexProducts_cases db params) as [H | [H | (data & total & H)]];
    rewrite H; clear H
  | rewrite indexProducts_no_query_string
  | let Hr := fresh "Hr" in
    let F := fresh "F" in
    destruct (lookup_cases db id) as [Hr | [[Hr F] | [r F]]];
    [ rewrite (showProduct_out_of_range db id Hr)
    | rewrite (showProduct_missing db id Hr F)
    | rewrite (showProduct_found db id r F) ]
  | let H := fresh "H" in
    destruct (storeProduct_cases db b) as [H | [H | [H | (p & Hp & Hseq & A & H)]]];
    rewrite H; clear H
  | rewrite storeProduct_no_body
  | let Hr := fresh "Hr" in
    let F := fresh "F" in
    destruct (lookup_cases db id) as [Hr | [[Hr F] | [r F]]];
    [ rewrite (updateProduct_out_of_range db id json_body Hr)
    | rewrite (updateProduct_missing db id json_body Hr F)
    | let e := fresh "e" in
      let He := fresh "He" in
      destruct (updateProduct_found_raises db id json_body r F) as [e [He _]];
      rewrite He ]
  | let Hr := fresh "Hr" in
    let F := fresh "F" in
    destruct (lookup_cases db id) as [Hr | [[Hr F] | [r F]]];
    [ rewrite (destroyProduct_out_of_range db id Hr)
    | rewrite (destroyProduct_missing db id Hr F)
    | rewrite (destroyProduct_found db id r F) ] ].

(** A response a handler returns is sent with HTTP status 200 and a null
    [error], and its envelope says either code 200 with status ["OK"], or
    code 400 with status ["BadRequest"] and null data.  No handler answers
    with code 500 or with another HTTP status. *)
Theorem route_response_codes :
  forall (q : request) (db : Database) (r : Response),
    fst (route q db) = Returned r ->
    http_status r = 200
    /\ field "error" r = Some VNone
    /\ (field "code" r = Some (VInt 200) /\ field "status" r = Some (VStr "OK")
        \/ field "code" r = Some (VInt 400)
           /\ field "status" r = Some (VStr "BadRequest")
           /\ field "data" r = Some VNone).
Proof.
  intros q db r0. revert r0.
  route_cases q db; cbn [fst]; intros r0 H; try discriminate H;
    injection H as <-; cbn; auto 10.
Qed.

Lemma route_response_codes_witness :
  http_status (envelope "BadRequest" 400 "The product with id '9' has not been found" VNone)
  = 200
  /\ field "error" (envelope "BadRequest" 400 "The product with id '9' has not been found" VNone)
     = Some VNone
  /\ (field "code" (envelope "BadRequest" 400 "The product with id '9' has not been found" VNone)
      = Some (VInt 200)
      /\ field "status" (envelope "BadRequest" 400 "The product with id '9' has not been found" VNone)
         = Some (VStr "OK")
      \/ field "code" (envelope "BadRequest" 400 "The product with id '9' has not been found" VNone)
         = Some (VInt 400)
         /\ field "status" (envelope "BadRequest" 400 "The product with id '9' has not been found" VNone)
            = Some (VStr "BadRequest")
         /\ field "data" (envelope "BadRequest" 400 "The product with id '9' has not been found" VNone)
            = Some VNone).
Proof.
  apply (route_response_codes (GET_product 9) Sample.db1). reflexivity.
Defined.

(** The database a call leaves: the one it found, except after a POST,
    which adds the created row or, refused by a constraint, only takes a
    value of the sequence, and after the DELETE of a stored product. *)
Lemma route_database (q : request) (db : Database) :
  snd (route q db) = db
  \/ (exists (b : Body.t) (p : ProductRow.t),
        q = POST_product (Some b)
        /\ posted_row db b = Some p
        /\ (products_id_seq db <? int32_max) = true
        /\ row_accepted (tables db) (products (tables db)) (as_stored p) = true
        /\ fst (route q db)
           = Returned (envelope "OK" 200 "The product has been created successfully"
                         (ProductView (tables db) p))
        /\ snd (route q db) = add_row (as_stored p) db)
  \/ (exists b : Body.t,
        q = POST_product (Some b)
        /\ fst (route q db) = Raised IntegrityError
        /\ snd (route q db)
           = {| tables := tables db; products_id_seq := products_id_seq db + 1 |})
  \/ (exists id : Z,
        q = DELETE_product id
        /\ has_product_id id (products (tables db)) = true
        /\ fst (route q db)
           = Returned (envelope "OK" 200
                         ("The product with id '" ++ str_of_Z id
                          ++ "'has been deleted successfully") VNone)
        /\ snd (route q db) = remove_product id db).
Proof.
  route_cases q db; try (now left).
  - right; right; left. exists b. now repeat split.
  - right; left. exists b, p. now repeat split.
  - right; right; right. exists id. repeat split.
    destruct (has_product_id id (products (tables db))) eqn:H; [reflexivity |].
    apply find_product_none in H. congruence.
Qed.

(** The two GET routes never write: whatever the parameters, and whether
    the call returns or raises, the database is left as it was. *)
Theorem GET_routes_read_only :
  forall (db : Database) (query_params : option (list (string * string))) (id : Z),
    snd (indexProducts query_params db) = db
    /\ snd (showProduct id db) = db.
Proof.
  intros db query_params id. split.
  - destruct (route_database (GET_products query_params) db)
      as [H | [(b & r & E & _) | [(b & E & _) | (i & E & _)]]];
      [exact H | discriminate E ..].
  - destruct (route_database (GET_product id) db)
      as [H | [(b & r & E & _) | [(b & E & _) | (i & E & _)]]];
      [exact H | discriminate E ..].
Qed.

(** Whatever the request and however the call ends: the unit measures are
    as before, the sequence has not gone back and has advanced by at most
    one, and the products are as before unless the call returned code
    200. *)
Theorem route_changes :
  forall (q : request) (db : Database),
    let db' := snd (route q db) in
    unit_measures (tables db') = unit_measures (tables db)
    /\ products_id_seq db <= products_id_seq db' <= products_id_seq db + 1
    /\ match fst (route q db) with
       | Returned r =>
           field "code" r = Some (VInt 200) \/ products (tables db') = products (tables db)
       | _ => products (tables db') = products (tables db)
       end.
Proof.
  intros q db db'. subst db'.
  destruct (route_database q db)
    as [H | [(b & r & _ & Hr & _ & _ & Ho & H) | [(b & _ & Ho & H) | (i & _ & _ & Ho & H)]]];
    rewrite H; try rewrite Ho; cbn.
  - repeat split; try lia. destruct (fst (route q db)); auto.
  - pose proof (posted_row_id db b r Hr).
    repeat split; try lia. now left.
  - repeat split; lia.
  - repeat split; try lia. now left.
Qed.

(* ================================================================= *)
(** ** Creating, deleting and reading back *)










Lemma find_product_snoc_stored (id : Z) (ps : list ProductRow.t) (r : ProductRow.t) :
  has_product_id id ps = true ->
  find_product id (ps ++ [r]) = find_product id ps.
Proof.
  unfold find_product, has_product_id.
  destruct (in_int32 id); cbn [andb]; [| reflexivity].
  induction ps as [| p ps IH]; cbn; [discriminate |].
  destruct (ProductRow.id p =? id); cbn; [reflexivity | exact IH].
Qed.

Lemma find_product_other_rows_neq (id id' : Z) (ps : list ProductRow.t) :
  id' <> id ->
  find_product id (other_rows id' ps) = find_product id ps.
Proof.
  intros N. unfold find_product, other_rows.
  destruct (in_int32 id); [| reflexivity].
  induction ps as [| p ps IH]; cbn; [reflexivity |].
  destruct (Z.eqb_spec (ProductRow.id p) id') as [E | E]; cbn.
  - destruct (Z.eqb_spec (ProductRow.id p) id) as [E' | _]; [congruence | exact IH].
  - destruct (ProductRow.id p =? id); [reflexivity | exact IH].
Qed.

(** What GET /product/{id} answers for a stored product is not changed by
    any other request, however that request ends: only the DELETE of the
    same id changes it. *)
Theorem showProduct_unchanged_by_other_requests :
  forall (q : request) (db : Database) (id : Z),
    has_product_id id (products (tables db)) = true ->
    q <> DELETE_product id ->
    fst (showProduct id (snd (route q db))) = fst (showProduct id db).
Proof.
  intros q db id Hid Hq.
  destruct (find_product id (products (tables db))) as [p |] eqn:F.
  2:{ apply find_product_none in F. congruence. }
  rewrite (showProduct_found db id p F).
  destruct (route_database q db)
    as [H | [(b & r & _ & _ & _ & _ & _ & H) | [(b & _ & _ & H) | (i & E & _ & _ & H)]]];
    rewrite H.
  - now rewrite (showProduct_found db id p F).
  - rewrite (showProduct_found (add_row (as_stored r) db) id p); [reflexivity |].
    unfold add_row; cbn [tables products]. now rewrite find_product_snoc_stored.
  - now rewrite (showProduct_found
                   {| tables := tables db; products_id_seq := products_id_seq db + 1 |}
                   id p F).
  - assert (i <> id) by congruence.
    rewrite (showProduct_found (remove_product i db) id p); [reflexivity |].
    unfold remove_product; cbn [tables products].
    now rewrite find_product_other_rows_neq.
Qed.

Lemma showProduct_unchanged_by_other_requests_witness :
  fst (showProduct 1 (snd (route (POST_product (Some Sample.sugar)) Sample.db1)))
  = fst (showProduct 1 Sample.db1)
  /\ fst (showProduct 1 (snd (route (DELETE_product 2) Sample.db1)))
     = fst (showProduct 1 Sample.db1).
Proof.
  split; apply showProduct_unchanged_by_other_requests;
    first [reflexivity | discriminate].
Defined.

(* ================================================================= *)
(** ** Any sequence of requests *)

Lemma route_keeps_unit_measures (q : request) (db : Database) :
  unit_measures (tables (snd (route q db))) = unit_measures (tables db).
Proof.
  destruct (route_database q db)
    as [H | [(b & r & _ & _ & _ & _ & _ & H) | [(b & _ & _ & H) | (i & _ & _ & _ & H)]]];
    now rewrite H.
Qed.

Lemma route_sequence_grows (q : request) (db : Database) :
  products_id_seq db <= products_id_seq (snd (route q db)).
Proof.
  destruct (route_database q db)
    as [H | [(b & r & _ & Hr & _ & _ & _ & H) | [(b & _ & _ & H) | (i & _ & _ & _ & H)]]];
    rewrite H; cbn; try lia.
  rewrite (posted_row_id db b r Hr). lia.
Qed.

Lemma route_keeps_consistent_db (q : request) (db : Database) :
  consistent db = true -> consistent (snd (route q db)) = true.
Proof.
  intros Hdb.
  destruct (route_database q db)
    as [H | [(b & r & _ & Hr & _ & Hacc & _ & H) | [(b & _ & _ & H) | (i & _ & _ & _ & H)]]];
    rewrite H.
  - exact Hdb.
  - apply consistent_add_row; try assumption. exact (posted_row_id db b r Hr).
  - now apply consistent_next_value.
  - now apply consistent_remove_product.
Qed.

(** Starting with no product, after any requests whatever, in any order
    and however each ended: the stored products are consistent (ids
    positive, pairwise distinct and handed out by the sequence, names
    pairwise distinct, every unit measure referred to stored), the unit
    measures are the initial ones, and the sequence has handed out at most
    one value per request. *)
Theorem serve_from_empty :
  forall (units : list UnitMeasure.t) (qs : list request),
    let db := serve qs (empty_database units) in
    consistent db = true
    /\ unit_measures (tables db) = units
    /\ 0 <= products_id_seq db <= Z.of_nat (List.length qs).
Proof.
  intros units qs.
  assert (G : forall db0 : Database,
             consistent db0 = true ->
             consistent (serve qs db0) = true
             /\ unit_measures (tables (serve qs db0)) = unit_measures (tables db0)
             /\ products_id_seq db0 <= products_id_seq (serve qs db0)
                <= products_id_seq db0 + Z.of_nat (List.length qs)).
  { induction qs as [| q qs IH]; intros db0 H0; cbn [serve List.length].
    - repeat split; [assumption | lia | lia].
    - destruct (IH (snd (route q db0)) (route_keeps_consistent_db q db0 H0))
        as (Hc & Hu & Hs).
      pose proof (route_sequence_grows q db0) as Hg.
      assert (Hle : products_id_seq (snd (route q db0)) <= products_id_seq db0 + 1).
      { destruct (route_database q db0)
          as [H | [(b & r & _ & Hr & _ & _ & _ & H) | [(b & _ & _ & H) | (i & _ & _ & _ & H)]]];
          rewrite H; cbn; try lia.
        rewrite (posted_row_id db0 b r Hr). lia. }
      repeat split; [assumption | | lia | lia].
      now rewrite Hu, route_keeps_unit_measures. }
  destruct (G (empty_database units) eq_refl) as (Hc & Hu & Hs).
  cbn in Hs, Hu. repeat split; try assumption; lia.
Qed.

(* ================================================================= *)
(** ** What the views and the listing hold *)

Lemma has_unit_measure_find (u : Z) (us : list UnitMeasure.t) :
  has_unit_measure u us = true ->
  exists m : UnitMeasure.t,
    find (fun m => UnitMeasure.id m =? u) us = Some m
    /\ In m us /\ UnitMeasure.id m = u.
Proof.
  unfold has_unit_measure. intros H.
  destruct (find (fun m => UnitMeasure.id m =? u) us) as [m |] eqn:F.
  - exists m. split; [reflexivity |].
    apply find_some in F as [Hin Hm]. split; [exact Hin | now apply Z.eqb_eq].
  - apply existsb_exists in H as (m & Hin & Hm).
    pose proof (find_none _ _ F m Hin) as N. cbn in N. congruence.
Qed.

(** On a consistent database, the data of GET /product/{id} for a stored
    product always carries its unit measure: [unit_measures] is not null,
    it is a stored unit measure, and its id is the product's
    [unit_measure_id]. *)
Theorem showProduct_embeds_unit_measure :
  forall (db : Database) (id : Z) (r : ProductRow.t),
    consistent db = true ->
    find_product id (products (tables db)) = Some r ->
    exists m : UnitMeasure.t,
      In m (unit_measures (tables db))
      /\ showProduct id db
         = (Returned
              (envelope "OK" 200 "The product has been found successfully"
                 (VDict [ ("id", VInt id);
                          ("name", VStr (ProductRow.name r));
                          ("price", VFloat (ProductRow.price r));
                          ("unit_measure_id", VInt (ProductRow.unit_measure_id r));
                          ("unit_measures",
                           VDict [ ("id", VInt (ProductRow.unit_measure_id r));
                                   ("name", VStr (UnitMeasure.name m)) ]) ])),
            db).
Proof.
  intros db id r Hdb F.
  apply consistent_iff in Hdb as (_ & _ & _ & _ & Hfk).
  rewrite forallb_forall in Hfk.
  destruct (find_product_some _ _ _ F) as (_ & Hin & Hid).
  destruct (has_unit_measure_find _ _ (Hfk r Hin)) as (m & Hfind & Hm & Hmid).
  exists m. split; [exact Hm |].
  rewrite (showProduct_found db id r F).
  unfold ProductView, UnitMeasureSchema_dump. rewrite Hfind.
  unfold dump_optional. now rewrite Hid, Hmid.
Qed.

Lemma showProduct_embeds_unit_measure_witness :
  exists m : UnitMeasure.t,
    In m (unit_measures (tables Sample.db1))
    /\ showProduct 1 Sample.db1
       = (Returned
            (envelope "OK" 200 "The product has been found successfully"
               (VDict [ ("id", VInt 1);
                        ("name", VStr (ProductRow.name Sample.flour_row));
                        ("price", VFloat (ProductRow.price Sample.flour_row));
                        ("unit_measure_id",
                         VInt (ProductRow.unit_measure_id Sample.flour_row));
                        ("unit_measures",
                         VDict [ ("id", VInt (ProductRow.unit_measure_id Sample.flour_row));
                                 ("name", VStr (UnitMeasure.name m)) ]) ])),
          Sample.db1).
Proof.
  apply (showProduct_embeds_unit_measure Sample.db1 1 Sample.flour_row); reflexivity.
Defined.

Lemma In_page {A : Type} (offset limit : Z) (rows : list A) (x : A) :
  In x (page offset limit rows) -> In x rows.
Proof.
  unfold page. intros H.
  rewrite <- (firstn_skipn (Z.to_nat offset) rows). apply in_or_app. right.
  rewrite <- (firstn_skipn (Z.to_nat limit) (skipn (Z.to_nat offset) rows)).
  apply in_or_app. now left.
Qed.

Lemma distinct_ids_find (ps : list ProductRow.t) (r : ProductRow.t) :
  distinct Z.eqb (map ProductRow.id ps) = true ->
  in_int32 (ProductRow.id r) = true ->
  In r ps ->
  find_product (ProductRow.id r) ps = Some r.
Proof.
  unfold find_product. intros Hd ->. revert Hd.
  induction ps as [| p ps IH]; cbn; [contradiction |].
  intros Hd [-> | Hin].
  - now rewrite Z.eqb_refl.
  - apply andb_prop in Hd as [Hp Hd].
    destruct (Z.eqb_spec (ProductRow.id p) (ProductRow.id r)) as [E | _];
      [| now apply IH].
    apply negb_true_iff in Hp.
    assert (X : existsb (Z.eqb (ProductRow.id p)) (map ProductRow.id ps) = true).
    { apply existsb_exists. exists (ProductRow.id r). split.
      - now apply in_map.
      - now apply Z.eqb_eq. }
    congruence.
Qed.

(** While the sequence is within the range of the id column, so is every
    stored id. *)
Lemma consistent_ids_in_range (db : Database) (r : ProductRow.t) :
  consistent db = true ->
  products_id_seq db <= int32_max ->
  In r (products (tables db)) ->
  in_int32 (ProductRow.id r) = true.
Proof.
  intros Hdb Hseq Hin.
  apply consistent_iff in Hdb as (_ & Hb & _).
  rewrite forallb_forall in Hb. specialize (Hb r Hin).
  apply andb_prop in Hb as [Hpos Hle].
  apply Z.ltb_lt in Hpos. apply Z.leb_le in Hle.
  unfold in_int32, int32_min. apply andb_true_intro; split; apply Z.leb_le; lia.
Qed.

(** The data list of a GET /products that returned: a page of the stored
    products that match the search. *)
Lemma indexProducts_data (db : Database) (params : list (string * string))
      (data : list value) :
  data_list (fst (indexProducts (Some params) db)) = Some data ->
  exists offset limit : Z,
    asint (multidict_get params "offset" (PyInt 0)) = Ok offset
    /\ asint (multidict_get params "limit" (PyInt 10)) = Ok limit
    /\ data = map (ProductView (tables db))
                (page offset limit
                   (matching (str (multidict_get params "search" (PyStr EmptyString)))
                      (products (tables db)))).
Proof.
  pose proof (indexProducts_bad_parameters db params) as Hbad.
  destruct (asint (multidict_get params "offset" (PyInt 0))) as [o | e] eqn:Eo;
    [destruct (asint (multidict_get params "limit" (PyInt 10))) as [l | e] eqn:El |];
    [| rewrite Hbad; discriminate | rewrite Hbad; discriminate].
  destruct Hbad as [Hnul Hrange].
  destruct (has_nul (str (multidict_get params "search" (PyStr EmptyString)))) eqn:Hs;
    [rewrite (Hnul eq_refl); discriminate |].
  destruct (row_count_ok o) eqn:Ho; [| rewrite (Hrange eq_refl eq_refl); discriminate].
  destruct (row_count_ok l) eqn:Hl; [| rewrite (Hrange eq_refl eq_refl); discriminate].
  rewrite (indexProducts_run db params o l Eo El Ho Hl Hs).
  cbn. intros [= <-]. exists o, l. repeat split.
Qed.

(** On a consistent database whose sequence is within the range of the id
    column, every entry of the data list of a GET /products that returned
    is the view of a stored product that matches the search, and it is
    exactly the data GET /product/{id} returns for that product's id. *)
Theorem indexProducts_entries_agree_with_showProduct :
  forall (db : Database) (params : list (string * string))
         (data : list value) (v : value),
    consistent db = true ->
    products_id_seq db <= int32_max ->
    data_list (fst (indexProducts (Some params) db)) = Some data ->
    In v data ->
    exists r : ProductRow.t,
      In r (products (tables db))
      /\ name_like (str (multidict_get params "search" (PyStr EmptyString))) r = true
      /\ v = ProductView (tables db) r
      /\ showProduct (ProductRow.id r) db
         = (Returned (envelope "OK" 200 "The product has been found successfully" v), db).
Proof.
  intros db params data v Hdb Hseq Hdata Hv.
  destruct (indexProducts_data db params data Hdata) as (offset & limit & _ & _ & ->).
  apply in_map_iff in Hv as (r & <- & Hr).
  apply In_page in Hr. unfold matching in Hr. apply filter_In in Hr as [Hin Hlike].
  exists r. repeat split; try assumption.
  apply showProduct_found.
  pose proof (consistent_ids_in_range db r Hdb Hseq Hin) as Hrange.
  apply consistent_iff in Hdb as (_ & _ & Hd & _).
  now apply distinct_ids_find.
Qed.

Lemma indexProducts_entries_agree_with_showProduct_witness :
  exists r : ProductRow.t,
    In r (products (tables Sample.db1))
    /\ name_like (str (multidict_get [("search", "our")] "search" (PyStr EmptyString))) r
       = true
    /\ ProductView (tables Sample.db1) Sample.flour_row = ProductView (tables Sample.db1) r
    /\ showProduct (ProductRow.id r) Sample.db1
       = (Returned (envelope "OK" 200 "The product has been found successfully"
                      (ProductView (tables Sample.db1) Sample.flour_row)),
          Sample.db1).
Proof.
  apply (indexProducts_entries_agree_with_showProduct
           Sample.db1 [("search", "our")]
           [ProductView (tables Sample.db1) Sample.flour_row]);
    first [reflexivity | discriminate | now left].
Defined.





(* ================================================================= *)
(** ** The search text and the parameters *)







(* ================================================================= *)
(** ** The message table *)

(** Every template of the message table is well formed and has no field
    other than [resource] and [id]: with both given, formatting any of the
    seven messages succeeds.  A key that is not in the table gives
    [AttributeError], and a template that mentions [id] gives
    [KeyError('id')] when only [resource] is given. *)
Theorem messages_well_formed :
  forall (key resource id : string),
    match dict_get key messages with
    | Some _ =>
        exists s : string, message key [("resource", resource); ("id", id)] = Ok s
    | None =>
        message key [("resource", resource); ("id", id)] = Raise AttributeError
    end
    /\ message "RecordUpdated" [("resource", resource)] = Raise (KeyError "id")
    /\ message "RecordDeleted" [("resource", resource)] = Raise (KeyError "id")
    /\ message "RecordNotFound" [("resource", resource)] = Raise (KeyError "id").
Proof.
  intros key resource id. split; [| repeat split].
  unfold message, messages. cbn [dict_get].
  repeat match goal with
         | |- context [if String.eqb ?a key then _ else _] =>
             destruct (String.eqb a key)
         end;
    first [reflexivity | eexists; reflexivity].
Qed.

(* ================================================================= *)
(** ** Listing what was created *)




